(** * USB DFU function driver (usb/class/dfu/device/dfudf.c)

    A shallow embedding of the DFU-mode request handlers [dfudf_in_req],
    [dfudf_out_req] and [dfudf_req], over the global variables of the
    driver, and the properties of the upgrade state machine they
    implement. *)

From Stdlib Require Import ZArith List Bool Lia.
Import ListNotations.
Local Open Scope Z_scope.

(** ** Declarations of usb_protocol_dfu.h and of the USB stack *)

(** Modelled from the spec: [enum usb_dfu_state] is declared in
    usb_protocol_dfu.h, which is not among the sources. The enumerators
    are the ones dfudf.c names, completed with the application-mode and
    upload states of the DFU state list. *)
Inductive usb_dfu_state : Type :=
| USB_DFU_STATE_APP_IDLE
| USB_DFU_STATE_APP_DETACH
| USB_DFU_STATE_DFU_IDLE
| USB_DFU_STATE_DFU_DNLOAD_SYNC
| USB_DFU_STATE_DFU_DNBUSY
| USB_DFU_STATE_DFU_DNLOAD_IDLE
| USB_DFU_STATE_DFU_MANIFEST_SYNC
| USB_DFU_STATE_DFU_MANIFEST
| USB_DFU_STATE_DFU_MANIFEST_WAIT_RESET
| USB_DFU_STATE_DFU_UPLOAD_IDLE
| USB_DFU_STATE_DFU_ERROR.

(** Modelled from the spec: [enum usb_dfu_status] of usb_protocol_dfu.h
    ([Ok] plus a set of error codes); dfudf.c names [USB_DFU_STATUS_OK]
    and [USB_DFU_STATUS_ERR_PROG] only. *)
Inductive usb_dfu_status : Type :=
| USB_DFU_STATUS_OK
| USB_DFU_STATUS_ERR_TARGET
| USB_DFU_STATUS_ERR_FILE
| USB_DFU_STATUS_ERR_WRITE
| USB_DFU_STATUS_ERR_ERASE
| USB_DFU_STATUS_ERR_CHECK_ERASED
| USB_DFU_STATUS_ERR_PROG
| USB_DFU_STATUS_ERR_VERIFY
| USB_DFU_STATUS_ERR_ADDRESS
| USB_DFU_STATUS_ERR_NOTDONE
| USB_DFU_STATUS_ERR_FIRMWARE
| USB_DFU_STATUS_ERR_VENDOR
| USB_DFU_STATUS_ERR_USBR
| USB_DFU_STATUS_ERR_POR
| USB_DFU_STATUS_ERR_UNKNOWN
| USB_DFU_STATUS_ERR_STALLEDPKT.

(** The integer value of an enumerator, as C converts it. *)
Definition state_code (s : usb_dfu_state) : Z :=
  match s with
  | USB_DFU_STATE_APP_IDLE => 0
  | USB_DFU_STATE_APP_DETACH => 1
  | USB_DFU_STATE_DFU_IDLE => 2
  | USB_DFU_STATE_DFU_DNLOAD_SYNC => 3
  | USB_DFU_STATE_DFU_DNBUSY => 4
  | USB_DFU_STATE_DFU_DNLOAD_IDLE => 5
  | USB_DFU_STATE_DFU_MANIFEST_SYNC => 6
  | USB_DFU_STATE_DFU_MANIFEST => 7
  | USB_DFU_STATE_DFU_MANIFEST_WAIT_RESET => 8
  | USB_DFU_STATE_DFU_UPLOAD_IDLE => 9
  | USB_DFU_STATE_DFU_ERROR => 10
  end.

Definition status_code (s : usb_dfu_status) : Z :=
  match s with
  | USB_DFU_STATUS_OK => 0
  | USB_DFU_STATUS_ERR_TARGET => 1
  | USB_DFU_STATUS_ERR_FILE => 2
  | USB_DFU_STATUS_ERR_WRITE => 3
  | USB_DFU_STATUS_ERR_ERASE => 4
  | USB_DFU_STATUS_ERR_CHECK_ERASED => 5
  | USB_DFU_STATUS_ERR_PROG => 6
  | USB_DFU_STATUS_ERR_VERIFY => 7
  | USB_DFU_STATUS_ERR_ADDRESS => 8
  | USB_DFU_STATUS_ERR_NOTDONE => 9
  | USB_DFU_STATUS_ERR_FIRMWARE => 10
  | USB_DFU_STATUS_ERR_VENDOR => 11
  | USB_DFU_STATUS_ERR_USBR => 12
  | USB_DFU_STATUS_ERR_POR => 13
  | USB_DFU_STATUS_ERR_UNKNOWN => 14
  | USB_DFU_STATUS_ERR_STALLEDPKT => 15
  end.

(** [==] and [!=] on enumerators compare their integer values. *)
Definition state_eqb (a b : usb_dfu_state) : bool := state_code a =? state_code b.
Definition status_eqb (a b : usb_dfu_status) : bool := status_code a =? status_code b.

(** [enum usb_dfu_req_code]: the class request codes. *)
Definition USB_DFU_DETACH : Z := 0.
Definition USB_DFU_DNLOAD : Z := 1.
Definition USB_DFU_UPLOAD : Z := 2.
Definition USB_DFU_GETSTATUS : Z := 3.
Definition USB_DFU_CLRSTATUS : Z := 4.
Definition USB_DFU_GETSTATE : Z := 5.
Definition USB_DFU_ABORT : Z := 6.

(** [enum usb_ctrl_stage] of the USB stack. *)
Inductive usb_ctrl_stage : Type :=
| USB_SETUP_STAGE
| USB_DATA_STAGE
| USB_STATUS_STAGE.

Definition stage_eqb (a b : usb_ctrl_stage) : bool :=
  match a, b with
  | USB_SETUP_STAGE, USB_SETUP_STAGE => true
  | USB_DATA_STAGE, USB_DATA_STAGE => true
  | USB_STATUS_STAGE, USB_STATUS_STAGE => true
  | _, _ => false
  end.

(** The error codes of the framework that the driver returns. *)
Definition ERR_NONE : Z := 0.
Definition ERR_NOT_FOUND : Z := -10.
Definition ERR_INVALID_ARG : Z := -13.
Definition ERR_UNSUPPORTED_OP : Z := -27.

Definition USB_EP_DIR_IN : Z := 128.

(** [struct usb_req]: the setup packet, [uint8_t] and [uint16_t] fields. *)
Record usb_req : Type := mk_usb_req {
  bmRequestType : Z;
  bRequest : Z;
  wValue : Z;
  wIndex : Z;
  wLength : Z
}.

(** Conversions to the unsigned C types the driver stores into. *)
Definition to_uint8 (z : Z) : Z := z mod 256.
Definition to_uint16 (z : Z) : Z := z mod 65536.
Definition to_size_t (z : Z) : Z := z mod 4294967296.

(** [sizeof(dfu_download_data)]. *)
Definition sizeof_dfu_download_data : Z := 512.

(** ** The transfer primitive

    [usbdc_xfer(ep, buf, size, zlp)] belongs to the USB device core. The
    driver hands it either no buffer ([NULL], a zero-length
    acknowledgment), its local [response] array, or the address of the
    staging buffer [dfu_download_data], which the core fills later. The
    model records every call in order; for the [response] array it keeps
    the first [size] bytes, the ones the transfer covers. *)
Inductive xfer_buf : Type :=
| BufNull
| BufResponse (bytes : list Z)
| BufDownloadData.

Record usb_xfer : Type := mk_usb_xfer {
  xfer_ep : Z;
  xfer_buf_of : xfer_buf;
  xfer_size : Z;
  xfer_zlp : bool
}.

(** What the sources leave open: the functional descriptor bytes
    ([DFUD_IFACE_DESCB] of dfudf_desc.h), the two attribute masks of
    usb_protocol_dfu.h that the handlers test, and the status
    [usbdc_xfer] returns for a call, given the calls made before it. *)
Record dfu_env : Type := mk_dfu_env {
  bmAttributes : Z;
  USB_REQ_DFU_DNLOAD : Z;
  USB_DFU_ATTRIBUTES_MANIFEST_TOLERANT : Z;
  usbdc_xfer_status : list usb_xfer -> usb_xfer -> Z
}.

(** ** The global variables of dfudf.c *)
Record dfu_world : Type := mk_dfu_world {
  dfu_state : usb_dfu_state;
  dfu_status : usb_dfu_status;
  dfu_download_data : list Z;
  dfu_download_length : Z;
  dfu_download_offset : Z;
  dfu_manifestation_complete : bool;
  func_iface : Z;
  xfers : list usb_xfer
}.

(** The initial values of the globals: idle, no error, nothing staged,
    nothing queued; [_dfudf_funcd] has static storage, so its interface
    number starts at zero. *)
Definition dfu_initial (data : list Z) : dfu_world :=
  {| dfu_state := USB_DFU_STATE_DFU_IDLE;
     dfu_status := USB_DFU_STATUS_OK;
     dfu_download_data := data;
     dfu_download_length := 0;
     dfu_download_offset := 0;
     dfu_manifestation_complete := false;
     func_iface := 0;
     xfers := [] |}.

(** ** A state monad over the globals *)
Module DfuM.

Definition M (A : Type) : Type := dfu_world -> A * dfu_world.

Definition ret {A : Type} (a : A) : M A := fun w => (a, w).

Definition bind {A B : Type} (m : M A) (k : A -> M B) : M B :=
  fun w => let (a, w') := m w in k a w'.

Definition read {A : Type} (f : dfu_world -> A) : M A := fun w => (f w, w).

Definition set_dfu_state (s : usb_dfu_state) : M unit :=
  fun w => (tt, {| dfu_state := s;
                   dfu_status := dfu_status w;
                   dfu_download_data := dfu_download_data w;
                   dfu_download_length := dfu_download_length w;
                   dfu_download_offset := dfu_download_offset w;
                   dfu_manifestation_complete := dfu_manifestation_complete w;
                   func_iface := func_iface w;
                   xfers := xfers w |}).

Definition set_dfu_status (s : usb_dfu_status) : M unit :=
  fun w => (tt, {| dfu_state := dfu_state w;
                   dfu_status := s;
                   dfu_download_data := dfu_download_data w;
                   dfu_download_length := dfu_download_length w;
                   dfu_download_offset := dfu_download_offset w;
                   dfu_manifestation_complete := dfu_manifestation_complete w;
                   func_iface := func_iface w;
                   xfers := xfers w |}).

Definition set_dfu_download_length (n : Z) : M unit :=
  fun w => (tt, {| dfu_state := dfu_state w;
                   dfu_status := dfu_status w;
                   dfu_download_data := dfu_download_data w;
                   dfu_download_length := n;
                   dfu_download_offset := dfu_download_offset w;
                   dfu_manifestation_complete := dfu_manifestation_complete w;
                   func_iface := func_iface w;
                   xfers := xfers w |}).

Definition set_dfu_download_offset (n : Z) : M unit :=
  fun w => (tt, {| dfu_state := dfu_state w;
                   dfu_status := dfu_status w;
                   dfu_download_data := dfu_download_data w;
                   dfu_download_length := dfu_download_length w;
                   dfu_download_offset := n;
                   dfu_manifestation_complete := dfu_manifestation_complete w;
                   func_iface := func_iface w;
                   xfers := xfers w |}).

Definition set_dfu_manifestation_complete (b : bool) : M unit :=
  fun w => (tt, {| dfu_state := dfu_state w;
                   dfu_status := dfu_status w;
                   dfu_download_data := dfu_download_data w;
                   dfu_download_length := dfu_download_length w;
                   dfu_download_offset := dfu_download_offset w;
                   dfu_manifestation_complete := b;
                   func_iface := func_iface w;
                   xfers := xfers w |}).

(** [usbdc_xfer]: the call is appended to the record of transfers and
    the core's status for it is returned. *)
Definition usbdc_xfer (env : dfu_env) (ep : Z) (buf : xfer_buf) (size : Z)
    (zlp : bool) : M Z :=
  fun w =>
    let x := mk_usb_xfer ep buf size zlp in
    (usbdc_xfer_status env (xfers w) x,
     {| dfu_state := dfu_state w;
        dfu_status := dfu_status w;
        dfu_download_data := dfu_download_data w;
        dfu_download_length := dfu_download_length w;
        dfu_download_offset := dfu_download_offset w;
        dfu_manifestation_complete := dfu_manifestation_complete w;
        func_iface := func_iface w;
        xfers := xfers w ++ [x] |}).

End DfuM.

Import DfuM.

Declare Scope dfu_scope.
Delimit Scope dfu_scope with dfu.
Notation "x <- m ;; k" := (bind m (fun x => k))
  (at level 61, m at next level, right associativity) : dfu_scope.
Notation "m ;; k" := (bind m (fun _ => k))
  (at level 61, right associativity) : dfu_scope.
Local Open Scope dfu_scope.

(** ** The request handlers *)
Section Handlers.

Variable env : dfu_env.

(** [usb_dfu_func_desc->bmAttributes & mask], as a C condition. *)
Definition attribute_set (mask : Z) : bool :=
  negb (Z.land (bmAttributes env) mask =? 0).

(** [dfudf_in_req]: process the DFU IN request. *)
Definition dfudf_in_req (ep : Z) (req : usb_req) (stage : usb_ctrl_stage) : M Z :=
  if stage_eqb USB_DATA_STAGE stage then ret ERR_NONE
  else if bRequest req =? USB_DFU_UPLOAD then
    set_dfu_state USB_DFU_STATE_DFU_ERROR ;;
    ret ERR_UNSUPPORTED_OP
  else if bRequest req =? USB_DFU_GETSTATUS then
    status <- read dfu_status ;;
    state <- read dfu_state ;;
    let response :=
      [to_uint8 (status_code status); 10; 0; 0; to_uint8 (state_code state); 0] in
    to_return <- usbdc_xfer env ep (BufResponse (firstn 6 response)) 6 false ;;
    state <- read dfu_state ;;
    (if state_eqb USB_DFU_STATE_DFU_DNLOAD_SYNC state then
       set_dfu_state USB_DFU_STATE_DFU_DNBUSY
     else if state_eqb USB_DFU_STATE_DFU_MANIFEST_SYNC state then
       complete <- read dfu_manifestation_complete ;;
       if negb complete then
         set_dfu_state USB_DFU_STATE_DFU_MANIFEST
       else if attribute_set (USB_DFU_ATTRIBUTES_MANIFEST_TOLERANT env) then
         set_dfu_state USB_DFU_STATE_DFU_IDLE
       else
         set_dfu_state USB_DFU_STATE_DFU_MANIFEST_WAIT_RESET
     else ret tt) ;;
    ret to_return
  else if bRequest req =? USB_DFU_GETSTATE then
    state <- read dfu_state ;;
    let response := [to_uint8 (state_code state)] in
    to_return <- usbdc_xfer env ep (BufResponse (firstn 1 response)) 1 false ;;
    ret to_return
  else
    set_dfu_state USB_DFU_STATE_DFU_ERROR ;;
    ret ERR_INVALID_ARG.

(** [dfudf_out_req]: process the DFU OUT request. *)
Definition dfudf_out_req (ep : Z) (req : usb_req) (stage : usb_ctrl_stage) : M Z :=
  if bRequest req =? USB_DFU_DETACH then
    set_dfu_state USB_DFU_STATE_DFU_ERROR ;;
    ret ERR_UNSUPPORTED_OP
  else if bRequest req =? USB_DFU_CLRSTATUS then
    state <- read dfu_state ;;
    status <- read dfu_status ;;
    (if state_eqb USB_DFU_STATE_DFU_ERROR state
        || negb (status_eqb USB_DFU_STATUS_OK status)
     then
       set_dfu_status USB_DFU_STATUS_OK ;;
       set_dfu_state USB_DFU_STATE_DFU_IDLE
     else ret tt) ;;
    to_return <- usbdc_xfer env ep BufNull 0 false ;;
    ret to_return
  else if bRequest req =? USB_DFU_ABORT then
    set_dfu_download_offset 0 ;;
    set_dfu_state USB_DFU_STATE_DFU_IDLE ;;
    to_return <- usbdc_xfer env ep BufNull 0 false ;;
    ret to_return
  else if bRequest req =? USB_DFU_DNLOAD then
    state <- read dfu_state ;;
    if negb (attribute_set (USB_REQ_DFU_DNLOAD env)) then
      set_dfu_state USB_DFU_STATE_DFU_ERROR ;;
      ret ERR_UNSUPPORTED_OP
    else if negb (state_eqb USB_DFU_STATE_DFU_IDLE state)
            && negb (state_eqb USB_DFU_STATE_DFU_DNLOAD_IDLE state) then
      set_dfu_status USB_DFU_STATUS_ERR_PROG ;;
      set_dfu_state USB_DFU_STATE_DFU_ERROR ;;
      ret ERR_INVALID_ARG
    else if state_eqb USB_DFU_STATE_DFU_IDLE state && (0 =? wLength req) then
      set_dfu_status USB_DFU_STATUS_ERR_PROG ;;
      set_dfu_state USB_DFU_STATE_DFU_ERROR ;;
      ret ERR_INVALID_ARG
    else if state_eqb USB_DFU_STATE_DFU_DNLOAD_IDLE state && (0 =? wLength req) then
      set_dfu_manifestation_complete false ;;
      set_dfu_state USB_DFU_STATE_DFU_MANIFEST_SYNC ;;
      to_return <- usbdc_xfer env ep BufNull 0 false ;;
      ret to_return
    else if sizeof_dfu_download_data <? wLength req then
      set_dfu_status USB_DFU_STATUS_ERR_PROG ;;
      set_dfu_state USB_DFU_STATE_DFU_ERROR ;;
      ret ERR_INVALID_ARG
    else if stage_eqb USB_SETUP_STAGE stage then
      to_return <- usbdc_xfer env ep BufDownloadData (wLength req) false ;;
      ret to_return
    else
      set_dfu_download_offset (to_size_t (wValue req * sizeof_dfu_download_data)) ;;
      set_dfu_download_length (to_uint16 (wLength req)) ;;
      set_dfu_state USB_DFU_STATE_DFU_DNLOAD_SYNC ;;
      to_return <- usbdc_xfer env ep BufNull 0 false ;;
      ret to_return
  else
    set_dfu_state USB_DFU_STATE_DFU_ERROR ;;
    ret ERR_INVALID_ARG.

(** [dfudf_req]: class requests for the bound interface go to the
    handler of their direction, everything else is not for this driver. *)
Definition dfudf_req (ep : Z) (req : usb_req) (stage : usb_ctrl_stage) : M Z :=
  if negb (Z.land (Z.shiftr (bmRequestType req) 5) 3 =? 1) then ret ERR_NOT_FOUND
  else
    iface <- read func_iface ;;
    if wIndex req =? iface then
      if negb (Z.land (bmRequestType req) USB_EP_DIR_IN =? 0) then
        dfudf_in_req ep req stage
      else
        dfudf_out_req ep req stage
    else ret ERR_NOT_FOUND.

End Handlers.

(** ** Running a handler *)

(** The globals after a handler call, and the value it returns. *)
Definition exec {A : Type} (m : M A) (w : dfu_world) : dfu_world := snd (m w).
Definition result {A : Type} (m : M A) (w : dfu_world) : A := fst (m w).

(** The worlds the request handlers can produce from the initial values
    of the globals. *)
Inductive reachable (env : dfu_env) : dfu_world -> Prop :=
| reachable_initial : forall data, reachable env (dfu_initial data)
| reachable_in : forall ep req stage w,
    reachable env w -> reachable env (exec (dfudf_in_req env ep req stage) w)
| reachable_out : forall ep req stage w,
    reachable env w -> reachable env (exec (dfudf_out_req env ep req stage) w).

(** Downloading is enabled when the test of line 223 finds the bit. *)
Definition download_enabled (env : dfu_env) : Prop :=
  attribute_set env (USB_REQ_DFU_DNLOAD env) = true.

(** The device is manifestation tolerant when the test of line 175 finds
    the bit. *)
Definition manifest_tolerant (env : dfu_env) : bool :=
  attribute_set env (USB_DFU_ATTRIBUTES_MANIFEST_TOLERANT env).

(** The zero-length acknowledgment [usbdc_xfer(ep, NULL, 0, false)]. *)
Definition ack (ep : Z) : usb_xfer := mk_usb_xfer ep BufNull 0 false.

(** The two candidate invariants relating [dfu_state] and [dfu_status]. *)
Definition error_caps_status (w : dfu_world) : Prop :=
  dfu_state w = USB_DFU_STATE_DFU_ERROR -> dfu_status w <> USB_DFU_STATUS_OK.


(** Concrete environments: a download-capable device that needs a reset
    after manifestation, a manifestation-tolerant one, and one without
    the download bit. The transfer primitive accepts every call. *)
Definition env_download : dfu_env :=
  {| bmAttributes := 9;
     USB_REQ_DFU_DNLOAD := 1;
     USB_DFU_ATTRIBUTES_MANIFEST_TOLERANT := 4;
     usbdc_xfer_status := fun _ _ => ERR_NONE |}.

Definition env_tolerant : dfu_env :=
  {| bmAttributes := 5;
     USB_REQ_DFU_DNLOAD := 1;
     USB_DFU_ATTRIBUTES_MANIFEST_TOLERANT := 4;
     usbdc_xfer_status := fun _ _ => ERR_NONE |}.

Definition env_no_download : dfu_env :=
  {| bmAttributes := 8;
     USB_REQ_DFU_DNLOAD := 1;
     USB_DFU_ATTRIBUTES_MANIFEST_TOLERANT := 4;
     usbdc_xfer_status := fun _ _ => ERR_NONE |}.

(** Class requests addressed to interface 0, by request code. *)
Definition out_request (code value length : Z) : usb_req :=
  mk_usb_req 33 code value 0 length.

Definition in_request (code length : Z) : usb_req :=
  mk_usb_req 161 code 0 0 length.

(** A world in a given state and status, over an empty record of
    transfers. *)
Definition world_in (s : usb_dfu_state) (st : usb_dfu_status) (complete : bool)
    : dfu_world :=
  {| dfu_state := s;
     dfu_status := st;
     dfu_download_data := repeat 0 512;
     dfu_download_length := 0;
     dfu_download_offset := 0;
     dfu_manifestation_complete := complete;
     func_iface := 0;
     xfers := [] |}.

(** What a rejected DNLOAD of a download-capable device does (lines 228
    to 230, 233 to 235 and 242 to 244). *)
Definition dnload_rejected (env : dfu_env) (ep : Z) (req : usb_req)
    (stage : usb_ctrl_stage) (w : dfu_world) : Prop :=
  let w' := exec (dfudf_out_req env ep req stage) w in
  dfu_status w' = USB_DFU_STATUS_ERR_PROG /\
  dfu_state w' = USB_DFU_STATE_DFU_ERROR /\
  result (dfudf_out_req env ep req stage) w = ERR_INVALID_ARG /\
  dfu_download_data w' = dfu_download_data w /\
  dfu_download_offset w' = dfu_download_offset w /\
  dfu_download_length w' = dfu_download_length w /\
  xfers w' = xfers w.

(** ** The function driver: binding to an interface

    [dfudf_enable], [dfudf_disable], [dfudf_ctrl], [dfudf_init],
    [dfudf_deinit] and [dfudf_is_enabled]. *)

Definition USB_DFU_CLASS : Z := 254.
Definition ERR_DENIED : Z := -17.
Definition ERR_ALREADY_INITIALIZED : Z := -18.
Definition ERR_NO_RESOURCE : Z := -28.

(** [enum usbdf_control] and the power state of [enum usbd_state], from
    the device core. *)
Definition USBDF_ENABLE : Z := 0.
Definition USBDF_DISABLE : Z := 1.
Definition USBDF_GET_IFACE : Z := 2.
Definition USBD_S_POWER : Z := 1.

(** [struct usbd_descriptors]: [sod] is the descriptor bytes from the
    start pointer up to the end pointer [eod], or [None] for a NULL
    start pointer. *)
Record usbd_descriptors : Type := mk_usbd_descriptors {
  sod : option (list Z)
}.

(** [p[i]] on a [uint8_t *]; there is no value past the end pointer. *)
Definition read_u8 (p : list Z) (i : nat) : option Z :=
  option_map to_uint8 (nth_error p i).

(** The two registrations [dfudf_init] makes with the device core. *)
Inductive usbdc_call : Type :=
| Usbdc_register_function
| Usbdc_register_handler.

(** The statics of the driver beside the DFU globals:
    [_dfudf_funcd.enabled] ([_dfudf_funcd.func_iface] is [func_iface]
    above), whether [_dfudf.ctrl] and [_dfudf.func_data] have been set
    (they start as NULL and are only ever set to [dfudf_ctrl] and
    [&_dfudf_funcd]), and the registrations made so far. *)
Record dfudf_module : Type := mk_dfudf_module {
  dfu : dfu_world;
  enabled : bool;
  dfudf_ctrl_ptr : bool;
  dfudf_func_data_ptr : bool;
  usbdc_calls : list usbdc_call
}.

Definition dfudf_module_initial (data : list Z) : dfudf_module :=
  {| dfu := dfu_initial data;
     enabled := false;
     dfudf_ctrl_ptr := false;
     dfudf_func_data_ptr := false;
     usbdc_calls := [] |}.

Definition set_func_iface (n : Z) (w : dfu_world) : dfu_world :=
  {| dfu_state := dfu_state w;
     dfu_status := dfu_status w;
     dfu_download_data := dfu_download_data w;
     dfu_download_length := dfu_download_length w;
     dfu_download_offset := dfu_download_offset w;
     dfu_manifestation_complete := dfu_manifestation_complete w;
     func_iface := n;
     xfers := xfers w |}.

(** The stores [func_data->func_iface = n; _dfudf_funcd.enabled = b]. *)
Definition bind_iface (n : Z) (b : bool) (d : dfudf_module) : dfudf_module :=
  {| dfu := set_func_iface n (dfu d);
     enabled := b;
     dfudf_ctrl_ptr := dfudf_ctrl_ptr d;
     dfudf_func_data_ptr := dfudf_func_data_ptr d;
     usbdc_calls := usbdc_calls d |}.

(** [dfudf_enable]. The driver argument is [&_dfudf], the only driver
    the module registers, so [drv->func_data] is [_dfudf.func_data]. The
    result is [None] where the C code reads through a NULL pointer or
    past the end of the descriptors. The final [usb_find_desc] call only
    reads, and its result goes to the local [ifc], which is not used
    again. *)
Definition dfudf_enable (desc : usbd_descriptors) (d : dfudf_module)
    : option (Z * dfudf_module) :=
  match sod desc with
  | None => Some (ERR_NOT_FOUND, d)
  | Some ifc =>
    match read_u8 ifc 2, read_u8 ifc 5 with
    | Some bInterfaceNumber, Some bInterfaceClass =>
      if USB_DFU_CLASS =? bInterfaceClass then
        if dfudf_func_data_ptr d then
          if func_iface (dfu d) =? bInterfaceNumber then
            Some (ERR_ALREADY_INITIALIZED, d)
          else if negb (func_iface (dfu d) =? 255) then
            Some (ERR_NO_RESOURCE, d)
          else
            Some (ERR_NONE, bind_iface bInterfaceNumber true d)
        else None
      else Some (ERR_NOT_FOUND, d)
    | _, _ => None
    end
  end.

(** [dfudf_disable]; [desc] may be NULL. *)
Definition dfudf_disable (desc : option usbd_descriptors) (d : dfudf_module)
    : option (Z * dfudf_module) :=
  let unbind :=
    if dfudf_func_data_ptr d then Some (ERR_NONE, bind_iface 255 false d)
    else None in
  match desc with
  | Some ds =>
    match sod ds with
    | None => None
    | Some ifc =>
      match read_u8 ifc 5 with
      | Some bInterfaceClass =>
        if negb (bInterfaceClass =? USB_DFU_CLASS) then Some (ERR_NOT_FOUND, d)
        else unbind
      | None => None
      end
    end
  | None => unbind
  end.

(** [dfudf_ctrl]; [param] is the descriptor pointer, possibly NULL. *)
Definition dfudf_ctrl (ctrl : Z) (param : option usbd_descriptors)
    (d : dfudf_module) : option (Z * dfudf_module) :=
  if ctrl =? USBDF_ENABLE then
    match param with
    | Some desc => dfudf_enable desc d
    | None => None
    end
  else if ctrl =? USBDF_DISABLE then dfudf_disable param d
  else if ctrl =? USBDF_GET_IFACE then Some (ERR_UNSUPPORTED_OP, d)
  else Some (ERR_INVALID_ARG, d).

(** [dfudf_init], given what [usbdc_get_state()] returns. *)
Definition dfudf_init (usbdc_state : Z) (d : dfudf_module) : Z * dfudf_module :=
  if USBD_S_POWER <? usbdc_state then (ERR_DENIED, d)
  else
    (ERR_NONE,
     {| dfu := dfu d;
        enabled := enabled d;
        dfudf_ctrl_ptr := true;
        dfudf_func_data_ptr := true;
        usbdc_calls :=
          usbdc_calls d ++ [Usbdc_register_function; Usbdc_register_handler] |}).

Definition dfudf_deinit (d : dfudf_module) : dfudf_module := d.

Definition dfudf_is_enabled (d : dfudf_module) : bool := enabled d.

(** The registered request handler [dfudf_req_h] run by the device core
    on the module's globals. *)
Definition dfudf_req_h (env : dfu_env) (ep : Z) (req : usb_req)
    (stage : usb_ctrl_stage) (d : dfudf_module) : Z * dfudf_module :=
  let (r, w) := dfudf_req env ep req stage (dfu d) in
  (r, {| dfu := w;
         enabled := enabled d;
         dfudf_ctrl_ptr := dfudf_ctrl_ptr d;
         dfudf_func_data_ptr := dfudf_func_data_ptr d;
         usbdc_calls := usbdc_calls d |}).

(** The module states that calls of the public entry points produce from
    the initial values of the statics. *)
Inductive module_reachable (env : dfu_env) : dfudf_module -> Prop :=
| module_initial : forall data, module_reachable env (dfudf_module_initial data)
| module_init : forall st d,
    module_reachable env d -> module_reachable env (snd (dfudf_init st d))
| module_ctrl : forall ctrl param d r d',
    module_reachable env d ->
    dfudf_ctrl ctrl param d = Some (r, d') ->
    module_reachable env d'
| module_req : forall ep req stage d,
    module_reachable env d ->
    module_reachable env (snd (dfudf_req_h env ep req stage d)).

(** An interface descriptor of 9 bytes with the given number and class. *)
Definition iface_desc (number class : Z) : usbd_descriptors :=
  {| sod := Some [9; 4; number; 0; 0; class; 1; 2; 0] |}.

(** A module after [dfudf_init], bound to the given interface number. *)
Definition module_bound (iface : Z) (en : bool) : dfudf_module :=
  {| dfu := set_func_iface iface (dfu_initial (repeat 0 512));
     enabled := en;
     dfudf_ctrl_ptr := true;
     dfudf_func_data_ptr := true;
     usbdc_calls := [Usbdc_register_function; Usbdc_register_handler] |}.

(** A well-formed setup packet: every field fits its C type. *)
Definition usb_req_wf (req : usb_req) : Prop :=
  0 <= bmRequestType req < 256 /\
  0 <= bRequest req < 256 /\
  0 <= wValue req < 65536 /\
  0 <= wIndex req < 65536 /\
  0 <= wLength req < 65536.

(** [n] GETSTATUS-style calls of the inbound handler in a row. *)
Fixpoint in_req_repeat (env : dfu_env) (ep : Z) (req : usb_req)
    (stage : usb_ctrl_stage) (n : nat) (w : dfu_world) : dfu_world :=
  match n with
  | O => w
  | S n' => in_req_repeat env ep req stage n' (exec (dfudf_in_req env ep req stage) w)
  end.

(** The states the request handlers alone can reach from the initial
    values, with what they leave untouched. *)
Definition handlers_only (w : dfu_world) : Prop :=
  (dfu_state w = USB_DFU_STATE_DFU_IDLE \/
   dfu_state w = USB_DFU_STATE_DFU_DNLOAD_SYNC \/
   dfu_state w = USB_DFU_STATE_DFU_DNBUSY \/
   dfu_state w = USB_DFU_STATE_DFU_ERROR) /\
  dfu_manifestation_complete w = false /\
  func_iface w = 0.

(** What the external applier relies on when it reads the staged block. *)
Definition staged_in_bounds (w : dfu_world) : Prop :=
  0 <= dfu_download_length w <= sizeof_dfu_download_data /\
  0 <= dfu_download_offset w /\
  dfu_download_offset w mod sizeof_dfu_download_data = 0.

(** The binding invariant of the module. *)
Definition binding_consistent (d : dfudf_module) : Prop :=
  0 <= func_iface (dfu d) < 256 /\
  (enabled d = true -> func_iface (dfu d) <> 255).

(** The status response of GETSTATUS for given globals. *)
Definition status_response (ep : Z) (w : dfu_world) : usb_xfer :=
  mk_usb_xfer ep
    (BufResponse [status_code (dfu_status w); 10; 0; 0; state_code (dfu_state w); 0])
    6 false.

(** ** Basic facts *)

Lemma state_code_uint8 : forall s, to_uint8 (state_code s) = state_code s.
Proof. destruct s; reflexivity. Qed.

Lemma status_code_uint8 : forall s, to_uint8 (status_code s) = status_code s.
Proof. destruct s; reflexivity. Qed.

Lemma state_code_inj : forall a b, state_code a = state_code b -> a = b.
Proof. destruct a, b; simpl; intros H; try reflexivity; discriminate H. Qed.

Lemma state_eqb_eq : forall a b, state_eqb a b = true <-> a = b.
Proof.
  intros a b. unfold state_eqb. rewrite Z.eqb_eq. split.
  - apply state_code_inj.
  - intros ->. reflexivity.
Qed.

Lemma status_eqb_ok : forall s,
  status_eqb USB_DFU_STATUS_OK s = true <-> s = USB_DFU_STATUS_OK.
Proof. destruct s; simpl; split; intros H; try reflexivity; discriminate H. Qed.

Lemma stage_eqb_eq : forall a b, stage_eqb a b = true <-> a = b.
Proof. destruct a, b; simpl; split; intros H; try reflexivity; discriminate H. Qed.

Lemma stage_not_data : forall stage,
  stage <> USB_DATA_STAGE -> stage_eqb USB_DATA_STAGE stage = false.
Proof. destruct stage; intros H; try reflexivity. now elim H. Qed.

(** Unfolding of the monadic code of a handler. *)
Ltac run_handler :=
  unfold exec, result, dfudf_in_req, dfudf_out_req, bind, ret, read,
    set_dfu_state, set_dfu_status, set_dfu_download_length,
    set_dfu_download_offset, set_dfu_manifestation_complete, usbdc_xfer, ack;
  cbn.

(** ** ABORT *)

(** C4. For every current state and every stage, an ABORT request sets
    the state to Idle, resets the staged offset to zero and queues a
    zero-length acknowledgment on the control channel; the handler
    returns what the transfer primitive returned, and status, staged
    length and staging buffer are left as they were. *)
Theorem abort_forces_idle :
  forall env ep req stage w,
    bRequest req = USB_DFU_ABORT ->
    let w' := exec (dfudf_out_req env ep req stage) w in
    dfu_state w' = USB_DFU_STATE_DFU_IDLE /\
    dfu_download_offset w' = 0 /\
    xfers w' = xfers w ++ [ack ep] /\
    result (dfudf_out_req env ep req stage) w
      = usbdc_xfer_status env (xfers w) (ack ep) /\
    dfu_status w' = dfu_status w /\
    dfu_download_length w' = dfu_download_length w /\
    dfu_download_data w' = dfu_download_data w.
Proof.
  intros env ep req stage w Hreq. run_handler. rewrite Hreq. cbn.
  repeat split.
Qed.

Lemma abort_forces_idle_witness :
  let w := world_in USB_DFU_STATE_DFU_DNBUSY USB_DFU_STATUS_OK false in
  let w' := exec (dfudf_out_req env_download 0 (out_request 6 0 0) USB_SETUP_STAGE) w in
  dfu_state w' = USB_DFU_STATE_DFU_IDLE /\
  dfu_download_offset w' = 0 /\
  xfers w' = [ack 0].
Proof.
  pose proof (abort_forces_idle env_download 0 (out_request 6 0 0) USB_SETUP_STAGE
                (world_in USB_DFU_STATE_DFU_DNBUSY USB_DFU_STATUS_OK false)
                eq_refl) as H.
  cbv zeta in H. destruct H as (Hs & Ho & Hx & _).
  repeat split; assumption.
Defined.

(** ** GETSTATE *)

(** C7. For every current state, a GETSTATE request leaves state,
    status, offset, length, staging buffer and manifestation flag
    unchanged. When the request arrives (any stage but the data stage,
    whose call only reports that the reply went out) the handler queues
    exactly one transfer, of one byte, and that byte is the numeric code
    of the current state; the data-stage call queues nothing. *)
Theorem getstate_reports_without_change :
  forall env ep req stage w,
    bRequest req = USB_DFU_GETSTATE ->
    let w' := exec (dfudf_in_req env ep req stage) w in
    dfu_state w' = dfu_state w /\
    dfu_status w' = dfu_status w /\
    dfu_download_offset w' = dfu_download_offset w /\
    dfu_download_length w' = dfu_download_length w /\
    dfu_download_data w' = dfu_download_data w /\
    dfu_manifestation_complete w' = dfu_manifestation_complete w /\
    xfers w' =
      xfers w ++
      (if stage_eqb USB_DATA_STAGE stage then []
       else [mk_usb_xfer ep (BufResponse [state_code (dfu_state w)]) 1 false]).
Proof.
  intros env ep req stage w Hreq.
  destruct stage; run_handler; rewrite ?Hreq; cbn;
    rewrite ?app_nil_r, ?state_code_uint8; repeat split.
Qed.

Lemma getstate_reports_without_change_witness :
  let w := world_in USB_DFU_STATE_DFU_MANIFEST USB_DFU_STATUS_OK false in
  let w' := exec (dfudf_in_req env_download 0 (in_request 5 1) USB_SETUP_STAGE) w in
  dfu_state w' = USB_DFU_STATE_DFU_MANIFEST /\
  xfers w' = [mk_usb_xfer 0 (BufResponse [7]) 1 false].
Proof.
  pose proof (getstate_reports_without_change env_download 0 (in_request 5 1)
                USB_SETUP_STAGE
                (world_in USB_DFU_STATE_DFU_MANIFEST USB_DFU_STATUS_OK false)
                eq_refl) as H.
  cbv zeta in H. destruct H as (Hs & _ & _ & _ & _ & _ & Hx).
  split; assumption.
Defined.

(** ** GETSTATUS *)

(** The six bytes GETSTATUS hands to the transfer primitive: they are
    written from the globals before any transition is applied. *)
Lemma getstatus_response :
  forall env ep req stage w,
    bRequest req = USB_DFU_GETSTATUS ->
    stage <> USB_DATA_STAGE ->
    xfers (exec (dfudf_in_req env ep req stage) w) =
      xfers w ++
      [mk_usb_xfer ep
         (BufResponse [status_code (dfu_status w); 10; 0; 0;
                       state_code (dfu_state w); 0]) 6 false].
Proof.
  intros env ep req stage w Hreq Hstage.
  destruct stage; [| congruence |]; run_handler; rewrite Hreq; cbn;
    rewrite state_code_uint8, status_code_uint8;
    destruct (dfu_state w); cbn; try reflexivity.
  all: destruct (dfu_manifestation_complete w); cbn; try reflexivity.
  all: destruct (attribute_set env _); reflexivity.
Qed.

(** C8. A GETSTATUS poll received (at any stage but the data stage) in
    state ManifestSync moves the machine to Manifest when the
    manifestation-complete flag is false; when the flag is true it moves
    to Idle if the manifestation-tolerant bit is set and to
    ManifestWaitReset otherwise. In every case the status response was
    queued first: the state byte of the queued response is still
    ManifestSync. *)
Theorem getstatus_in_manifest_sync :
  forall env ep req stage w,
    bRequest req = USB_DFU_GETSTATUS ->
    stage <> USB_DATA_STAGE ->
    dfu_state w = USB_DFU_STATE_DFU_MANIFEST_SYNC ->
    let w' := exec (dfudf_in_req env ep req stage) w in
    dfu_state w' =
      (if negb (dfu_manifestation_complete w) then USB_DFU_STATE_DFU_MANIFEST
       else if manifest_tolerant env then USB_DFU_STATE_DFU_IDLE
       else USB_DFU_STATE_DFU_MANIFEST_WAIT_RESET) /\
    xfers w' =
      xfers w ++
      [mk_usb_xfer ep
         (BufResponse [status_code (dfu_status w); 10; 0; 0;
                       state_code USB_DFU_STATE_DFU_MANIFEST_SYNC; 0]) 6 false] /\
    result (dfudf_in_req env ep req stage) w =
      usbdc_xfer_status env (xfers w)
        (mk_usb_xfer ep
           (BufResponse [status_code (dfu_status w); 10; 0; 0;
                         state_code USB_DFU_STATE_DFU_MANIFEST_SYNC; 0]) 6 false).
Proof.
  intros env ep req stage w Hreq Hstage Hstate. cbv zeta.
  split; [| split].
  - unfold manifest_tolerant.
    destruct stage; [| congruence |]; run_handler; rewrite Hreq; cbn;
      rewrite Hstate; cbn;
      destruct (dfu_manifestation_complete w); cbn; try reflexivity;
      destruct (attribute_set env _); reflexivity.
  - rewrite (getstatus_response env ep req stage w Hreq Hstage), Hstate.
    reflexivity.
  - destruct stage; [| congruence |]; run_handler; rewrite Hreq; cbn;
      rewrite Hstate, status_code_uint8; cbn;
      destruct (dfu_manifestation_complete w); cbn; try reflexivity;
      destruct (attribute_set env _); reflexivity.
Qed.

Lemma getstatus_in_manifest_sync_witness :
  dfu_state (exec (dfudf_in_req env_download 0 (in_request 3 6) USB_SETUP_STAGE)
               (world_in USB_DFU_STATE_DFU_MANIFEST_SYNC USB_DFU_STATUS_OK true))
    = USB_DFU_STATE_DFU_MANIFEST_WAIT_RESET /\
  dfu_state (exec (dfudf_in_req env_tolerant 0 (in_request 3 6) USB_SETUP_STAGE)
               (world_in USB_DFU_STATE_DFU_MANIFEST_SYNC USB_DFU_STATUS_OK true))
    = USB_DFU_STATE_DFU_IDLE /\
  dfu_state (exec (dfudf_in_req env_tolerant 0 (in_request 3 6) USB_SETUP_STAGE)
               (world_in USB_DFU_STATE_DFU_MANIFEST_SYNC USB_DFU_STATUS_OK false))
    = USB_DFU_STATE_DFU_MANIFEST.
Proof.
  assert (Hstage : USB_SETUP_STAGE <> USB_DATA_STAGE) by discriminate.
  split; [| split].
  - exact (proj1 (getstatus_in_manifest_sync env_download 0 (in_request 3 6)
                    USB_SETUP_STAGE
                    (world_in USB_DFU_STATE_DFU_MANIFEST_SYNC USB_DFU_STATUS_OK true)
                    eq_refl Hstage eq_refl)).
  - exact (proj1 (getstatus_in_manifest_sync env_tolerant 0 (in_request 3 6)
                    USB_SETUP_STAGE
                    (world_in USB_DFU_STATE_DFU_MANIFEST_SYNC USB_DFU_STATUS_OK true)
                    eq_refl Hstage eq_refl)).
  - exact (proj1 (getstatus_in_manifest_sync env_tolerant 0 (in_request 3 6)
                    USB_SETUP_STAGE
                    (world_in USB_DFU_STATE_DFU_MANIFEST_SYNC USB_DFU_STATUS_OK false)
                    eq_refl Hstage eq_refl)).
Defined.

(** The data-stage call of the inbound handler only reports that the
    reply went out: it returns [ERR_NONE] and touches nothing. *)
Lemma in_req_data_stage :
  forall env ep req w,
    dfudf_in_req env ep req USB_DATA_STAGE w = (ERR_NONE, w).
Proof. reflexivity. Qed.

(** ** Unrecognized request codes *)

(** C9. A request whose code is none of the codes its handler
    recognizes (DETACH, CLRSTATUS, ABORT, DNLOAD for the outbound
    handler; UPLOAD, GETSTATUS, GETSTATE for the inbound one) sets the
    state to Error and the handler returns InvalidArgument. For the
    inbound handler this is the call that dispatches on the code, at any
    stage but the data stage. *)
Theorem unrecognized_request_is_invalid :
  forall env ep req stage w,
    (bRequest req <> USB_DFU_DETACH ->
     bRequest req <> USB_DFU_CLRSTATUS ->
     bRequest req <> USB_DFU_ABORT ->
     bRequest req <> USB_DFU_DNLOAD ->
     dfu_state (exec (dfudf_out_req env ep req stage) w) = USB_DFU_STATE_DFU_ERROR /\
     result (dfudf_out_req env ep req stage) w = ERR_INVALID_ARG) /\
    (stage <> USB_DATA_STAGE ->
     bRequest req <> USB_DFU_UPLOAD ->
     bRequest req <> USB_DFU_GETSTATUS ->
     bRequest req <> USB_DFU_GETSTATE ->
     dfu_state (exec (dfudf_in_req env ep req stage) w) = USB_DFU_STATE_DFU_ERROR /\
     result (dfudf_in_req env ep req stage) w = ERR_INVALID_ARG).
Proof.
  intros env ep req stage w. split.
  - intros H0 H4 H6 H1. unfold exec, result, dfudf_out_req.
    destruct (Z.eqb_spec (bRequest req) USB_DFU_DETACH); [contradiction |].
    destruct (Z.eqb_spec (bRequest req) USB_DFU_CLRSTATUS); [contradiction |].
    destruct (Z.eqb_spec (bRequest req) USB_DFU_ABORT); [contradiction |].
    destruct (Z.eqb_spec (bRequest req) USB_DFU_DNLOAD); [contradiction |].
    split; reflexivity.
  - intros Hstage H2 H3 H5. unfold exec, result, dfudf_in_req.
    rewrite (stage_not_data _ Hstage).
    destruct (Z.eqb_spec (bRequest req) USB_DFU_UPLOAD); [contradiction |].
    destruct (Z.eqb_spec (bRequest req) USB_DFU_GETSTATUS); [contradiction |].
    destruct (Z.eqb_spec (bRequest req) USB_DFU_GETSTATE); [contradiction |].
    split; reflexivity.
Qed.

Lemma unrecognized_request_is_invalid_witness :
  let w := world_in USB_DFU_STATE_DFU_DNLOAD_IDLE USB_DFU_STATUS_OK false in
  (dfu_state (exec (dfudf_out_req env_download 0 (out_request 3 0 0) USB_SETUP_STAGE) w)
     = USB_DFU_STATE_DFU_ERROR /\
   result (dfudf_out_req env_download 0 (out_request 3 0 0) USB_SETUP_STAGE) w
     = ERR_INVALID_ARG) /\
  (dfu_state (exec (dfudf_in_req env_download 0 (in_request 66 0) USB_SETUP_STAGE) w)
     = USB_DFU_STATE_DFU_ERROR /\
   result (dfudf_in_req env_download 0 (in_request 66 0) USB_SETUP_STAGE) w
     = ERR_INVALID_ARG).
Proof.
  cbv zeta. split.
  - apply (proj1 (unrecognized_request_is_invalid env_download 0 (out_request 3 0 0)
                    USB_SETUP_STAGE
                    (world_in USB_DFU_STATE_DFU_DNLOAD_IDLE USB_DFU_STATUS_OK false)));
      discriminate.
  - apply (proj2 (unrecognized_request_is_invalid env_download 0 (in_request 66 0)
                    USB_SETUP_STAGE
                    (world_in USB_DFU_STATE_DFU_DNLOAD_IDLE USB_DFU_STATUS_OK false)));
      discriminate.
Defined.

(** ** DNLOAD *)

(** C3. On a device whose descriptor enables downloading, a DNLOAD
    request whose wLength exceeds the capacity of the staging buffer
    (512 bytes) is rejected in every current state and at every stage:
    status becomes ProgramError, state becomes Error, the handler
    returns InvalidArgument, and staging buffer, offset and length are
    not updated (nor is any transfer queued). *)
Theorem oversized_download_rejected :
  forall env ep req stage w,
    download_enabled env ->
    bRequest req = USB_DFU_DNLOAD ->
    sizeof_dfu_download_data < wLength req ->
    dnload_rejected env ep req stage w.
Proof.
  intros env ep req stage w Hen Hreq Hlen.
  unfold download_enabled in Hen. unfold sizeof_dfu_download_data in Hlen.
  assert (Hz : (0 =? wLength req) = false) by (apply Z.eqb_neq; lia).
  assert (Hbig : (512 <? wLength req) = true) by (apply Z.ltb_lt; lia).
  unfold dnload_rejected, exec, result, dfudf_out_req, sizeof_dfu_download_data.
  rewrite Hreq, Hen, Hz, Hbig. cbn.
  destruct (dfu_state w); cbn; repeat split.
Qed.

Lemma oversized_download_rejected_witness :
  dnload_rejected env_download 0 (out_request 1 0 513) USB_SETUP_STAGE
    (world_in USB_DFU_STATE_DFU_DNLOAD_IDLE USB_DFU_STATUS_OK false).
Proof.
  apply oversized_download_rejected.
  - reflexivity.
  - reflexivity.
  - unfold sizeof_dfu_download_data. simpl. lia.
Defined.

(** C6. On a device whose descriptor enables downloading, a DNLOAD
    request with wLength = 0 received while the state is Idle is never
    accepted: it sets status to ProgramError, sets state to Error and
    returns InvalidArgument, at every stage, leaving the staged data,
    offset and length alone. *)
Theorem empty_download_in_idle_rejected :
  forall env ep req stage w,
    download_enabled env ->
    bRequest req = USB_DFU_DNLOAD ->
    wLength req = 0 ->
    dfu_state w = USB_DFU_STATE_DFU_IDLE ->
    dnload_rejected env ep req stage w.
Proof.
  intros env ep req stage w Hen Hreq Hlen Hstate.
  unfold download_enabled in Hen.
  unfold dnload_rejected, exec, result, dfudf_out_req.
  rewrite Hreq, Hen, Hlen. cbn. rewrite Hstate. cbn. repeat split.
Qed.

Lemma empty_download_in_idle_rejected_witness :
  dnload_rejected env_download 0 (out_request 1 0 0) USB_SETUP_STAGE
    (world_in USB_DFU_STATE_DFU_IDLE USB_DFU_STATUS_OK false).
Proof.
  apply empty_download_in_idle_rejected; reflexivity.
Defined.

(** Without the download bit, DNLOAD is refused as unsupported whatever
    its length and the current state, and the status is left alone. *)
Lemma download_disabled_unsupported :
  forall env ep req stage w,
    attribute_set env (USB_REQ_DFU_DNLOAD env) = false ->
    bRequest req = USB_DFU_DNLOAD ->
    let w' := exec (dfudf_out_req env ep req stage) w in
    dfu_state w' = USB_DFU_STATE_DFU_ERROR /\
    dfu_status w' = dfu_status w /\
    result (dfudf_out_req env ep req stage) w = ERR_UNSUPPORTED_OP.
Proof.
  intros env ep req stage w Hdis Hreq.
  unfold exec, result, dfudf_out_req. rewrite Hreq, Hdis. cbn. repeat split.
Qed.

Example download_disabled_oversized :
  let w := world_in USB_DFU_STATE_DFU_IDLE USB_DFU_STATUS_OK false in
  dfudf_out_req env_no_download 0 (out_request 1 0 513) USB_SETUP_STAGE w
  = (ERR_UNSUPPORTED_OP,
     world_in USB_DFU_STATE_DFU_ERROR USB_DFU_STATUS_OK false).
Proof. reflexivity. Qed.

(** An accepted DNLOAD fragment, data phase: offset, length and state
    are recorded and the data is acknowledged. *)
Lemma download_fragment_accepted :
  forall env ep req stage w,
    download_enabled env ->
    bRequest req = USB_DFU_DNLOAD ->
    0 < wLength req <= sizeof_dfu_download_data ->
    stage <> USB_SETUP_STAGE ->
    dfu_state w = USB_DFU_STATE_DFU_IDLE \/
      dfu_state w = USB_DFU_STATE_DFU_DNLOAD_IDLE ->
    let w' := exec (dfudf_out_req env ep req stage) w in
    dfu_state w' = USB_DFU_STATE_DFU_DNLOAD_SYNC /\
    dfu_download_offset w' = to_size_t (wValue req * sizeof_dfu_download_data) /\
    dfu_download_length w' = to_uint16 (wLength req) /\
    dfu_status w' = dfu_status w /\
    dfu_download_data w' = dfu_download_data w /\
    xfers w' = xfers w ++ [ack ep].
Proof.
  intros env ep req stage w Hen Hreq Hlen Hstage Hstate.
  unfold download_enabled in Hen. unfold sizeof_dfu_download_data in Hlen.
  assert (Hz : (0 =? wLength req) = false) by (apply Z.eqb_neq; lia).
  assert (Hbig : (512 <? wLength req) = false) by (apply Z.ltb_ge; lia).
  assert (Hs : stage_eqb USB_SETUP_STAGE stage = false)
    by (destruct stage; [congruence | reflexivity | reflexivity]).
  unfold exec, dfudf_out_req, sizeof_dfu_download_data.
  rewrite Hreq, Hen, Hz, Hbig, Hs. cbn.
  destruct Hstate as [-> | ->]; cbn; repeat split.
Qed.

(** ** The download sequence *)

(** A GETSTATUS poll received in DnloadSync queues the response and
    switches to DnBusy. *)
Lemma getstatus_in_dnload_sync :
  forall env ep req stage w,
    bRequest req = USB_DFU_GETSTATUS ->
    stage <> USB_DATA_STAGE ->
    dfu_state w = USB_DFU_STATE_DFU_DNLOAD_SYNC ->
    dfu_state (exec (dfudf_in_req env ep req stage) w) = USB_DFU_STATE_DFU_DNBUSY.
Proof.
  intros env ep req stage w Hreq Hstage Hstate.
  destruct stage; [| congruence |]; run_handler; rewrite Hreq; cbn;
    rewrite Hstate; reflexivity.
Qed.

(** C1, as the code has it. Starting from state Idle with status Ok, on
    a download-capable device, a download request with length 64 and
    block index 0, in the data phase, puts the machine in DnloadSync
    with offset = 0 and length = 64; a subsequent GetStatus poll queues
    the 6-byte response [Ok,10,0,0,DnloadSync,0], whose state byte is
    the state before the transition, and leaves the machine in DnBusy. *)
Theorem download_then_getstatus :
  forall env ep req poll stage w,
    download_enabled env ->
    dfu_state w = USB_DFU_STATE_DFU_IDLE ->
    dfu_status w = USB_DFU_STATUS_OK ->
    bRequest req = USB_DFU_DNLOAD ->
    wLength req = 64 ->
    wValue req = 0 ->
    bRequest poll = USB_DFU_GETSTATUS ->
    stage <> USB_DATA_STAGE ->
    let w1 := exec (dfudf_out_req env ep req USB_DATA_STAGE) w in
    let w2 := exec (dfudf_in_req env ep poll stage) w1 in
    dfu_state w1 = USB_DFU_STATE_DFU_DNLOAD_SYNC /\
    dfu_download_offset w1 = 0 /\
    dfu_download_length w1 = 64 /\
    xfers w2 =
      xfers w1 ++
      [mk_usb_xfer ep
         (BufResponse [status_code USB_DFU_STATUS_OK; 10; 0; 0;
                       state_code USB_DFU_STATE_DFU_DNLOAD_SYNC; 0]) 6 false] /\
    dfu_state w2 = USB_DFU_STATE_DFU_DNBUSY.
Proof.
  intros env ep req poll stage w Hen Hstate Hstatus Hreq Hlen Hval Hpoll Hstage.
  assert (Hdata : USB_DATA_STAGE <> USB_SETUP_STAGE) by discriminate.
  assert (Hrange : 0 < wLength req <= sizeof_dfu_download_data)
    by (rewrite Hlen; unfold sizeof_dfu_download_data; lia).
  destruct (download_fragment_accepted env ep req USB_DATA_STAGE w
              Hen Hreq Hrange Hdata (or_introl Hstate))
    as (Hs1 & Ho1 & Hl1 & Hst1 & _ & _).
  cbv zeta. rewrite Hval in Ho1. rewrite Hlen in Hl1.
  repeat split.
  - exact Hs1.
  - exact Ho1.
  - exact Hl1.
  - rewrite (getstatus_response env ep poll stage _ Hpoll Hstage).
    rewrite Hs1, Hst1, Hstatus. reflexivity.
  - apply getstatus_in_dnload_sync; assumption.
Qed.

Lemma download_then_getstatus_witness :
  let w := dfu_initial (repeat 0 512) in
  let w1 := exec (dfudf_out_req env_download 0 (out_request 1 0 64) USB_DATA_STAGE) w in
  let w2 := exec (dfudf_in_req env_download 0 (in_request 3 6) USB_SETUP_STAGE) w1 in
  dfu_state w1 = USB_DFU_STATE_DFU_DNLOAD_SYNC /\
  dfu_download_offset w1 = 0 /\
  dfu_download_length w1 = 64 /\
  xfers w2 = xfers w1 ++ [mk_usb_xfer 0 (BufResponse [0; 10; 0; 0; 3; 0]) 6 false] /\
  dfu_state w2 = USB_DFU_STATE_DFU_DNBUSY.
Proof.
  assert (Hstage : USB_SETUP_STAGE <> USB_DATA_STAGE) by discriminate.
  exact (download_then_getstatus env_download 0 (out_request 1 0 64) (in_request 3 6)
           USB_SETUP_STAGE (dfu_initial (repeat 0 512))
           eq_refl eq_refl eq_refl eq_refl eq_refl eq_refl eq_refl Hstage).
Defined.

(** C1, as stated, fails: after the accepted download of 64 bytes at
    block 0 from the initial state, the response queued by the poll does
    not carry DnBusy in its state byte. *)
Lemma getstatus_response_is_not_dnbusy :
  let w := dfu_initial (repeat 0 512) in
  let w1 := exec (dfudf_out_req env_download 0 (out_request 1 0 64) USB_DATA_STAGE) w in
  let w2 := exec (dfudf_in_req env_download 0 (in_request 3 6) USB_SETUP_STAGE) w1 in
  ~ (dfu_state w1 = USB_DFU_STATE_DFU_DNLOAD_SYNC /\
     dfu_download_offset w1 = 0 /\
     dfu_download_length w1 = 64 /\
     xfers w2 =
       xfers w1 ++
       [mk_usb_xfer 0
          (BufResponse [status_code USB_DFU_STATUS_OK; 10; 0; 0;
                        state_code USB_DFU_STATE_DFU_DNBUSY; 0]) 6 false] /\
     dfu_state w2 = USB_DFU_STATE_DFU_DNBUSY).
Proof.
  cbv zeta. intros (_ & _ & _ & Hx & _).
  vm_compute in Hx. discriminate Hx.
Qed.

(** ** CLRSTATUS *)

(** C5, as the code has it. A CLRSTATUS request always queues a
    zero-length acknowledgment; if the current state is Error or the
    status is not Ok it resets status to Ok and state to Idle; when the
    state is not Error and the status is Ok it leaves state and status
    unchanged. Offset, length, staging buffer and manifestation flag
    are never touched. *)
Theorem clrstatus_clears_error_or_status :
  forall env ep req stage w,
    bRequest req = USB_DFU_CLRSTATUS ->
    let w' := exec (dfudf_out_req env ep req stage) w in
    xfers w' = xfers w ++ [ack ep] /\
    result (dfudf_out_req env ep req stage) w
      = usbdc_xfer_status env (xfers w) (ack ep) /\
    (dfu_state w = USB_DFU_STATE_DFU_ERROR \/ dfu_status w <> USB_DFU_STATUS_OK ->
     dfu_status w' = USB_DFU_STATUS_OK /\ dfu_state w' = USB_DFU_STATE_DFU_IDLE) /\
    (dfu_state w <> USB_DFU_STATE_DFU_ERROR -> dfu_status w = USB_DFU_STATUS_OK ->
     dfu_state w' = dfu_state w /\ dfu_status w' = dfu_status w) /\
    dfu_download_offset w' = dfu_download_offset w /\
    dfu_download_length w' = dfu_download_length w /\
    dfu_download_data w' = dfu_download_data w /\
    dfu_manifestation_complete w' = dfu_manifestation_complete w.
Proof.
  intros env ep req stage w Hreq. run_handler. rewrite Hreq. cbn.
  destruct (dfu_state w) eqn:Hs, (dfu_status w) eqn:Hst; cbn;
    repeat match goal with |- _ /\ _ => split end;
    try reflexivity; intros;
    repeat match goal with Hor : _ \/ _ |- _ => destruct Hor end;
    try congruence; split; congruence.
Qed.

Lemma clrstatus_clears_error_or_status_witness :
  let w := world_in USB_DFU_STATE_DFU_DNBUSY USB_DFU_STATUS_ERR_WRITE false in
  let w' := exec (dfudf_out_req env_download 0 (out_request 4 0 0) USB_SETUP_STAGE) w in
  xfers w' = [ack 0] /\
  dfu_status w' = USB_DFU_STATUS_OK /\
  dfu_state w' = USB_DFU_STATE_DFU_IDLE.
Proof.
  pose proof (clrstatus_clears_error_or_status env_download 0 (out_request 4 0 0)
                USB_SETUP_STAGE
                (world_in USB_DFU_STATE_DFU_DNBUSY USB_DFU_STATUS_ERR_WRITE false)
                eq_refl) as H.
  cbv zeta in H. destruct H as (Hx & _ & Hclear & _).
  split; [exact Hx |].
  apply Hclear. right. discriminate.
Defined.

(** C5, as stated, fails: after a rejected empty download and an ABORT
    the machine is in Idle, not in Error, with status ProgramError, and
    CLRSTATUS then changes the status. *)
Lemma clrstatus_changes_status_outside_error :
  let w0 := dfu_initial (repeat 0 512) in
  let w1 := exec (dfudf_out_req env_download 0 (out_request 1 0 0) USB_SETUP_STAGE) w0 in
  let w2 := exec (dfudf_out_req env_download 0 (out_request 6 0 0) USB_SETUP_STAGE) w1 in
  let w3 := exec (dfudf_out_req env_download 0 (out_request 4 0 0) USB_SETUP_STAGE) w2 in
  reachable env_download w2 /\
  ~ (dfu_state w2 <> USB_DFU_STATE_DFU_ERROR ->
     dfu_state w3 = dfu_state w2 /\ dfu_status w3 = dfu_status w2).
Proof.
  cbv zeta. split.
  - do 2 apply reachable_out. apply reachable_initial.
  - intros H. assert (Hne : USB_DFU_STATE_DFU_IDLE <> USB_DFU_STATE_DFU_ERROR)
      by discriminate.
    destruct (H Hne) as [_ Hst]. vm_compute in Hst. discriminate Hst.
Qed.

(** ** State and status *)

(** C2, as stated, fails: from the initial state a DETACH request leads
    to Error with status Ok, so Error does not cap the status to a
    non-Ok value in every reachable state. *)
Lemma error_state_with_ok_status_reachable :
  ~ (forall w, reachable env_download w -> error_caps_status w).
Proof.
  intros H.
  specialize (H (exec (dfudf_out_req env_download 0 (out_request 0 0 0) USB_SETUP_STAGE)
                   (dfu_initial (repeat 0 512)))
                (reachable_out _ _ _ _ _ (reachable_initial _ _))).
  apply H; reflexivity.
Qed.


(** Case analysis following the [switch] of each handler. *)
Ltac in_req_cases req stage :=
  unfold exec, result, dfudf_in_req;
  destruct stage;
  cbn [stage_eqb];
  try (destruct (Z.eqb_spec (bRequest req) USB_DFU_UPLOAD);
       [| destruct (Z.eqb_spec (bRequest req) USB_DFU_GETSTATUS);
          [| destruct (Z.eqb_spec (bRequest req) USB_DFU_GETSTATE)]]).

Ltac out_req_cases req :=
  unfold exec, result, dfudf_out_req;
  destruct (Z.eqb_spec (bRequest req) USB_DFU_DETACH);
  [| destruct (Z.eqb_spec (bRequest req) USB_DFU_CLRSTATUS);
     [| destruct (Z.eqb_spec (bRequest req) USB_DFU_ABORT);
        [| destruct (Z.eqb_spec (bRequest req) USB_DFU_DNLOAD)]]].

Ltac split_tests :=
  repeat match goal with
         | |- context [if ?b then _ else _] => destruct b; cbn
         end.

(** The inbound handler never writes [dfu_status]. *)
Lemma in_req_keeps_status :
  forall env ep req stage w,
    dfu_status (exec (dfudf_in_req env ep req stage) w) = dfu_status w.
Proof.
  intros env ep req stage w.
  in_req_cases req stage; unfold bind, ret, read, set_dfu_state, usbdc_xfer; cbn;
    try reflexivity;
    destruct (dfu_state w); cbn; try reflexivity;
    split_tests; reflexivity.
Qed.

(** From Error the inbound handler goes nowhere else. *)
Lemma in_req_stays_in_error :
  forall env ep req stage w,
    dfu_state w = USB_DFU_STATE_DFU_ERROR ->
    dfu_state (exec (dfudf_in_req env ep req stage) w) = USB_DFU_STATE_DFU_ERROR.
Proof.
  intros env ep req stage w Hstate.
  in_req_cases req stage; unfold bind, ret, read, set_dfu_state, usbdc_xfer; cbn;
    rewrite ?Hstate; cbn; solve [reflexivity | exact Hstate].
Qed.

(** The outbound handler writes [dfu_status] in two places only: a
    rejected DNLOAD sets ProgramError together with state Error, and
    CLRSTATUS sets Ok together with state Idle. *)
Lemma out_req_status_writes :
  forall env ep req stage w,
    let w' := exec (dfudf_out_req env ep req stage) w in
    dfu_status w' = dfu_status w \/
    (bRequest req = USB_DFU_DNLOAD /\
     dfu_status w' = USB_DFU_STATUS_ERR_PROG /\
     dfu_state w' = USB_DFU_STATE_DFU_ERROR) \/
    (bRequest req = USB_DFU_CLRSTATUS /\
     dfu_status w' = USB_DFU_STATUS_OK /\
     dfu_state w' = USB_DFU_STATE_DFU_IDLE).
Proof.
  intros env ep req stage w. cbv zeta.
  out_req_cases req;
    unfold bind, ret, read, set_dfu_state, set_dfu_status,
      set_dfu_download_length, set_dfu_download_offset,
      set_dfu_manifestation_complete, usbdc_xfer; cbn;
    try (left; reflexivity).
  - destruct (dfu_state w) eqn:Hs, (dfu_status w) eqn:Hst; cbn;
      solve [left; congruence | right; right; repeat split; assumption].
  - destruct (dfu_state w) eqn:Hs; cbn; split_tests;
      solve [left; reflexivity | right; left; repeat split; assumption].
Qed.

(** From Error the outbound handler leaves only through CLRSTATUS and
    ABORT. *)
Lemma out_req_stays_in_error :
  forall env ep req stage w,
    bRequest req <> USB_DFU_CLRSTATUS ->
    bRequest req <> USB_DFU_ABORT ->
    dfu_state w = USB_DFU_STATE_DFU_ERROR ->
    dfu_state (exec (dfudf_out_req env ep req stage) w) = USB_DFU_STATE_DFU_ERROR.
Proof.
  intros env ep req stage w Hclr Habort Hstate.
  out_req_cases req; try contradiction;
    unfold bind, ret, read, set_dfu_state, set_dfu_status; cbn;
    rewrite ?Hstate; cbn; split_tests; reflexivity.
Qed.

(** C2, as the code has it. The status of a machine in Error may be Ok:
    DETACH, UPLOAD, an unrecognized code and a DNLOAD on a device
    without the download capability set the state to Error without
    writing the status. What holds in every state, whatever the status,
    is that a non-Ok status stays non-Ok until an explicit clear-status
    request is processed, and that a machine in Error, with any status,
    Ok included, stays in Error until a CLRSTATUS or an ABORT request. *)
Theorem nonok_status_kept_until_clrstatus :
  forall env ep req stage w,
    (dfu_status w <> USB_DFU_STATUS_OK ->
     dfu_status (exec (dfudf_in_req env ep req stage) w) <> USB_DFU_STATUS_OK /\
     (bRequest req <> USB_DFU_CLRSTATUS ->
      dfu_status (exec (dfudf_out_req env ep req stage) w) <> USB_DFU_STATUS_OK)) /\
    (dfu_state w = USB_DFU_STATE_DFU_ERROR ->
     dfu_state (exec (dfudf_in_req env ep req stage) w) = USB_DFU_STATE_DFU_ERROR /\
     (bRequest req <> USB_DFU_CLRSTATUS ->
      bRequest req <> USB_DFU_ABORT ->
      dfu_state (exec (dfudf_out_req env ep req stage) w) = USB_DFU_STATE_DFU_ERROR)) /\
    (stage <> USB_DATA_STAGE ->
     bRequest req <> USB_DFU_GETSTATUS ->
     bRequest req <> USB_DFU_GETSTATE ->
     dfu_state (exec (dfudf_in_req env ep req stage) w) = USB_DFU_STATE_DFU_ERROR /\
     dfu_status (exec (dfudf_in_req env ep req stage) w) = dfu_status w) /\
    (bRequest req <> USB_DFU_CLRSTATUS ->
     bRequest req <> USB_DFU_ABORT ->
     bRequest req <> USB_DFU_DNLOAD \/
       attribute_set env (USB_REQ_DFU_DNLOAD env) = false ->
     dfu_state (exec (dfudf_out_req env ep req stage) w) = USB_DFU_STATE_DFU_ERROR /\
     dfu_status (exec (dfudf_out_req env ep req stage) w) = dfu_status w).
Proof.
  intros env ep req stage w. split; [| split; [| split]].
  - intros Hnok. split.
    + rewrite in_req_keeps_status. exact Hnok.
    + intros Hclr.
      destruct (out_req_status_writes env ep req stage w)
        as [Hsame | [(_ & Hprog & _) | (Hreq & _)]].
      * rewrite Hsame. exact Hnok.
      * rewrite Hprog. discriminate.
      * contradiction.
  - intros Hstate. split.
    + apply in_req_stays_in_error. exact Hstate.
    + intros Hclr Habort. apply out_req_stays_in_error; assumption.
  - intros Hstage Hgs Hgt. split; [| apply in_req_keeps_status].
    unfold exec, dfudf_in_req. rewrite (stage_not_data _ Hstage).
    destruct (Z.eqb_spec (bRequest req) USB_DFU_UPLOAD); [reflexivity |].
    destruct (Z.eqb_spec (bRequest req) USB_DFU_GETSTATUS); [contradiction |].
    destruct (Z.eqb_spec (bRequest req) USB_DFU_GETSTATE); [contradiction |].
    reflexivity.
  - intros Hclr Habort Hdn. unfold exec, dfudf_out_req.
    destruct (Z.eqb_spec (bRequest req) USB_DFU_DETACH); [split; reflexivity |].
    destruct (Z.eqb_spec (bRequest req) USB_DFU_CLRSTATUS); [contradiction |].
    destruct (Z.eqb_spec (bRequest req) USB_DFU_ABORT); [contradiction |].
    destruct (Z.eqb_spec (bRequest req) USB_DFU_DNLOAD) as [Heq | Hne].
    + destruct Hdn as [Hdn | Hdis]; [contradiction |].
      unfold bind, read. cbn [fst snd]. rewrite Hdis. split; reflexivity.
    + split; reflexivity.
Qed.

Lemma nonok_status_kept_until_clrstatus_witness :
  let w := world_in USB_DFU_STATE_DFU_ERROR USB_DFU_STATUS_ERR_PROG false in
  let v := world_in USB_DFU_STATE_DFU_ERROR USB_DFU_STATUS_OK false in
  let u := world_in USB_DFU_STATE_DFU_IDLE USB_DFU_STATUS_OK false in
  (dfu_status (exec (dfudf_in_req env_download 0 (in_request 3 6) USB_SETUP_STAGE) w)
     <> USB_DFU_STATUS_OK /\
   dfu_status (exec (dfudf_out_req env_download 0 (out_request 1 0 64) USB_DATA_STAGE) w)
     <> USB_DFU_STATUS_OK) /\
  (dfu_state (exec (dfudf_in_req env_download 0 (in_request 3 6) USB_SETUP_STAGE) v)
     = USB_DFU_STATE_DFU_ERROR /\
   dfu_state (exec (dfudf_out_req env_download 0 (out_request 1 0 64) USB_DATA_STAGE) v)
     = USB_DFU_STATE_DFU_ERROR) /\
  (dfu_state (exec (dfudf_in_req env_download 0 (in_request 2 64) USB_SETUP_STAGE) u)
     = USB_DFU_STATE_DFU_ERROR /\
   dfu_status (exec (dfudf_in_req env_download 0 (in_request 2 64) USB_SETUP_STAGE) u)
     = dfu_status u) /\
  (dfu_state (exec (dfudf_out_req env_download 0 (out_request 0 0 0) USB_SETUP_STAGE) u)
     = USB_DFU_STATE_DFU_ERROR /\
   dfu_status (exec (dfudf_out_req env_download 0 (out_request 0 0 0) USB_SETUP_STAGE) u)
     = dfu_status u) /\
  (dfu_state (exec (dfudf_out_req env_no_download 0 (out_request 1 0 64) USB_DATA_STAGE) u)
     = USB_DFU_STATE_DFU_ERROR /\
   dfu_status (exec (dfudf_out_req env_no_download 0 (out_request 1 0 64) USB_DATA_STAGE) u)
     = dfu_status u).
Proof.
  cbv zeta.
  assert (Hnok : USB_DFU_STATUS_ERR_PROG <> USB_DFU_STATUS_OK) by discriminate.
  assert (Hsetup : USB_SETUP_STAGE <> USB_DATA_STAGE) by discriminate.
  assert (Hclr1 : 1 <> USB_DFU_CLRSTATUS) by discriminate.
  assert (Habort1 : 1 <> USB_DFU_ABORT) by discriminate.
  assert (Hclr0 : 0 <> USB_DFU_CLRSTATUS) by discriminate.
  assert (Habort0 : 0 <> USB_DFU_ABORT) by discriminate.
  assert (Hdn0 : 0 <> USB_DFU_DNLOAD) by discriminate.
  assert (Hgs2 : 2 <> USB_DFU_GETSTATUS) by discriminate.
  assert (Hgt2 : 2 <> USB_DFU_GETSTATE) by discriminate.
  repeat match goal with |- _ /\ _ => split end.
  - exact (proj1 (proj1 (nonok_status_kept_until_clrstatus env_download 0
                           (in_request 3 6) USB_SETUP_STAGE
                           (world_in USB_DFU_STATE_DFU_ERROR USB_DFU_STATUS_ERR_PROG false))
                    Hnok)).
  - exact (proj2 (proj1 (nonok_status_kept_until_clrstatus env_download 0
                           (out_request 1 0 64) USB_DATA_STAGE
                           (world_in USB_DFU_STATE_DFU_ERROR USB_DFU_STATUS_ERR_PROG false))
                    Hnok) Hclr1).
  - exact (proj1 (proj1 (proj2 (nonok_status_kept_until_clrstatus env_download 0
                                  (in_request 3 6) USB_SETUP_STAGE
                                  (world_in USB_DFU_STATE_DFU_ERROR USB_DFU_STATUS_OK false)))
                    eq_refl)).
  - exact (proj2 (proj1 (proj2 (nonok_status_kept_until_clrstatus env_download 0
                                  (out_request 1 0 64) USB_DATA_STAGE
                                  (world_in USB_DFU_STATE_DFU_ERROR USB_DFU_STATUS_OK false)))
                    eq_refl) Hclr1 Habort1).
  - exact (proj1 (proj1 (proj2 (proj2 (nonok_status_kept_until_clrstatus env_download 0
                                         (in_request 2 64) USB_SETUP_STAGE
                                         (world_in USB_DFU_STATE_DFU_IDLE USB_DFU_STATUS_OK false))))
                    Hsetup Hgs2 Hgt2)).
  - exact (proj2 (proj1 (proj2 (proj2 (nonok_status_kept_until_clrstatus env_download 0
                                         (in_request 2 64) USB_SETUP_STAGE
                                         (world_in USB_DFU_STATE_DFU_IDLE USB_DFU_STATUS_OK false))))
                    Hsetup Hgs2 Hgt2)).
  - exact (proj1 (proj2 (proj2 (proj2 (nonok_status_kept_until_clrstatus env_download 0
                                         (out_request 0 0 0) USB_SETUP_STAGE
                                         (world_in USB_DFU_STATE_DFU_IDLE USB_DFU_STATUS_OK false))))
                    Hclr0 Habort0 (or_introl Hdn0))).
  - exact (proj2 (proj2 (proj2 (proj2 (nonok_status_kept_until_clrstatus env_download 0
                                         (out_request 0 0 0) USB_SETUP_STAGE
                                         (world_in USB_DFU_STATE_DFU_IDLE USB_DFU_STATUS_OK false))))
                    Hclr0 Habort0 (or_introl Hdn0))).
  - exact (proj1 (proj2 (proj2 (proj2 (nonok_status_kept_until_clrstatus env_no_download 0
                                         (out_request 1 0 64) USB_DATA_STAGE
                                         (world_in USB_DFU_STATE_DFU_IDLE USB_DFU_STATUS_OK false))))
                    Hclr1 Habort1 (or_intror eq_refl))).
  - exact (proj2 (proj2 (proj2 (proj2 (nonok_status_kept_until_clrstatus env_no_download 0
                                         (out_request 1 0 64) USB_DATA_STAGE
                                         (world_in USB_DFU_STATE_DFU_IDLE USB_DFU_STATUS_OK false))))
                    Hclr1 Habort1 (or_intror eq_refl))).
Defined.






(** ** The dispatcher *)

(** [dfudf_req] does nothing but return "not found" for a request that
    is not a class request or targets another interface; otherwise it
    is the handler of the request's direction. *)
Lemma dfudf_req_dispatch :
  forall env ep req stage w,
    dfudf_req env ep req stage w =
      if negb (Z.land (Z.shiftr (bmRequestType req) 5) 3 =? 1) then (ERR_NOT_FOUND, w)
      else if wIndex req =? func_iface w then
        if negb (Z.land (bmRequestType req) USB_EP_DIR_IN =? 0)
        then dfudf_in_req env ep req stage w
        else dfudf_out_req env ep req stage w
      else (ERR_NOT_FOUND, w).
Proof.
  intros env ep req stage w. unfold dfudf_req, bind, read, ret.
  destruct (negb _); [reflexivity |].
  destruct (wIndex req =? func_iface w); [| reflexivity].
  destruct (negb _); reflexivity.
Qed.

Example dfudf_req_abort_from_dnbusy :
  dfu_state (exec (dfudf_req env_download 0 (out_request 6 0 0) USB_SETUP_STAGE)
               (world_in USB_DFU_STATE_DFU_DNBUSY USB_DFU_STATUS_OK false))
    = USB_DFU_STATE_DFU_IDLE.
Proof. reflexivity. Qed.

Example dfudf_req_getstate_in :
  xfers (exec (dfudf_req env_download 0 (in_request 5 1) USB_SETUP_STAGE)
           (world_in USB_DFU_STATE_DFU_DNLOAD_IDLE USB_DFU_STATUS_OK false))
    = [mk_usb_xfer 0 (BufResponse [5]) 1 false].
Proof. reflexivity. Qed.

Example dfudf_req_other_interface :
  dfudf_req env_download 0 (mk_usb_req 33 6 0 1 0) USB_SETUP_STAGE
    (world_in USB_DFU_STATE_DFU_DNBUSY USB_DFU_STATUS_OK false)
  = (ERR_NOT_FOUND, world_in USB_DFU_STATE_DFU_DNBUSY USB_DFU_STATUS_OK false).
Proof. reflexivity. Qed.

(** ** Enabling and disabling the function *)

(** The decision tree of [dfudf_enable] once the descriptor bytes are
    read and [_dfudf.func_data] is set. *)
Lemma dfudf_enable_dfu_class :
  forall ifc n d,
    read_u8 ifc 2 = Some n ->
    read_u8 ifc 5 = Some USB_DFU_CLASS ->
    dfudf_func_data_ptr d = true ->
    dfudf_enable {| sod := Some ifc |} d =
      if func_iface (dfu d) =? n then Some (ERR_ALREADY_INITIALIZED, d)
      else if negb (func_iface (dfu d) =? 255) then Some (ERR_NO_RESOURCE, d)
      else Some (ERR_NONE, bind_iface n true d).
Proof.
  intros ifc n d Hn Hc Hp. unfold dfudf_enable. cbn [sod].
  rewrite Hn, Hc, Hp. reflexivity.
Qed.

Lemma read_u8_range :
  forall p i b, read_u8 p i = Some b -> 0 <= b < 256.
Proof.
  intros p i b H. unfold read_u8 in H.
  destruct (nth_error p i); [| discriminate H].
  cbn in H. injection H as <-. unfold to_uint8. apply Z.mod_pos_bound. lia.
Qed.

(** What [dfudf_enable] returns when it returns [ERR_NONE]. *)
Lemma dfudf_enable_ok_inv :
  forall desc d d',
    dfudf_enable desc d = Some (ERR_NONE, d') ->
    exists ifc n,
      sod desc = Some ifc /\
      read_u8 ifc 2 = Some n /\
      read_u8 ifc 5 = Some USB_DFU_CLASS /\
      dfudf_func_data_ptr d = true /\
      func_iface (dfu d) = 255 /\
      n <> 255 /\
      d' = bind_iface n true d.
Proof.
  intros desc d d' H. unfold dfudf_enable in H.
  destruct (sod desc) as [ifc |]; [| discriminate H].
  destruct (read_u8 ifc 2) as [n |] eqn:Hn; [| discriminate H].
  destruct (read_u8 ifc 5) as [c |] eqn:Hc; [| discriminate H].
  destruct (Z.eqb_spec USB_DFU_CLASS c) as [<- |]; [| discriminate H].
  destruct (dfudf_func_data_ptr d) eqn:Hp; [| discriminate H].
  destruct (Z.eqb_spec (func_iface (dfu d)) n) as [| Hne]; [discriminate H |].
  destruct (Z.eqb_spec (func_iface (dfu d)) 255) as [H255 |]; [| discriminate H].
  cbn in H. injection H as <-.
  exists ifc, n. repeat split; try assumption; try reflexivity. congruence.
Qed.

(** X1. [dfudf_enable] returns [ERR_NONE] exactly when the descriptor
    is of the DFU class, no interface is bound ([func_iface] is 0xFF)
    and the descriptor's interface number is not 0xFF itself; it then
    binds that number and marks the function enabled. *)
Theorem enable_succeeds_iff_slot_free :
  forall desc d r d',
    dfudf_enable desc d = Some (r, d') ->
    (r = ERR_NONE <->
     exists ifc n,
       sod desc = Some ifc /\
       read_u8 ifc 2 = Some n /\
       read_u8 ifc 5 = Some USB_DFU_CLASS /\
       func_iface (dfu d) = 255 /\
       n <> 255) /\
    (r = ERR_NONE ->
     exists ifc n,
       sod desc = Some ifc /\ read_u8 ifc 2 = Some n /\
       func_iface (dfu d') = n /\ dfudf_is_enabled d' = true).
Proof.
  intros desc d r d' H. split; [split |].
  - intros ->. destruct (dfudf_enable_ok_inv _ _ _ H)
      as (ifc & n & Hs & Hn & Hc & _ & H255 & Hne & _).
    exists ifc, n. repeat split; assumption.
  - intros (ifc & n & Hs & Hn & Hc & H255 & Hne).
    unfold dfudf_enable in H. rewrite Hs, Hn, Hc in H. cbn in H.
    destruct (dfudf_func_data_ptr d); [| discriminate H].
    rewrite H255 in H.
    destruct (Z.eqb_spec 255 n) as [Heq |]; [congruence |].
    cbn in H. congruence.
  - intros ->. destruct (dfudf_enable_ok_inv _ _ _ H)
      as (ifc & n & Hs & Hn & _ & _ & _ & _ & ->).
    exists ifc, n. repeat split; assumption.
Qed.

Lemma enable_succeeds_iff_slot_free_witness :
  ERR_NONE = ERR_NONE <->
  exists ifc n,
    sod (iface_desc 3 254) = Some ifc /\
    read_u8 ifc 2 = Some n /\
    read_u8 ifc 5 = Some USB_DFU_CLASS /\
    func_iface (dfu (module_bound 255 false)) = 255 /\
    n <> 255.
Proof.
  exact (proj1 (enable_succeeds_iff_slot_free (iface_desc 3 254)
                  (module_bound 255 false) ERR_NONE
                  (bind_iface 3 true (module_bound 255 false)) eq_refl)).
Defined.

(** Every branch of [dfudf_enable] but the binding one returns the
    module it was given. *)
Lemma dfudf_enable_error_inv :
  forall desc d r d',
    dfudf_enable desc d = Some (r, d') ->
    r <> ERR_NONE ->
    d' = d.
Proof.
  intros desc d r d' H Hr. unfold dfudf_enable in H.
  destruct (sod desc) as [ifc |]; [| congruence].
  destruct (read_u8 ifc 2) as [n |]; [| discriminate H].
  destruct (read_u8 ifc 5) as [c |]; [| discriminate H].
  destruct (USB_DFU_CLASS =? c); [| congruence].
  destruct (dfudf_func_data_ptr d); [| discriminate H].
  destruct (func_iface (dfu d) =? n); [congruence |].
  destruct (negb (func_iface (dfu d) =? 255)); [congruence |].
  injection H as <- _. contradiction.
Qed.

(** X2. A call of [dfudf_enable] that does not return [ERR_NONE] leaves
    every static of the module as it was: binding, enabled flag, DFU
    globals and registrations. *)
Theorem enable_failure_changes_nothing :
  forall desc d r d',
    dfudf_enable desc d = Some (r, d') ->
    r <> ERR_NONE ->
    d' = d /\
    func_iface (dfu d') = func_iface (dfu d) /\
    dfudf_is_enabled d' = dfudf_is_enabled d.
Proof.
  intros desc d r d' H Hr.
  rewrite (dfudf_enable_error_inv desc d r d' H Hr). repeat split.
Qed.

Lemma enable_failure_changes_nothing_witness :
  module_bound 3 true = module_bound 3 true.
Proof.
  refine (proj1 (enable_failure_changes_nothing (iface_desc 4 254) (module_bound 3 true)
           ERR_NO_RESOURCE (module_bound 3 true) eq_refl _)).
  discriminate.
Defined.

(** X3. Once [dfudf_enable] has bound an interface, enabling again with
    the same descriptor reports "already initialized", and enabling with
    a DFU descriptor of another interface number reports "no resource";
    neither changes the binding. *)
Theorem enable_twice_is_refused :
  forall desc d d',
    dfudf_enable desc d = Some (ERR_NONE, d') ->
    dfudf_enable desc d' = Some (ERR_ALREADY_INITIALIZED, d') /\
    (forall ifc m,
        read_u8 ifc 2 = Some m ->
        read_u8 ifc 5 = Some USB_DFU_CLASS ->
        m <> func_iface (dfu d') ->
        dfudf_enable {| sod := Some ifc |} d' = Some (ERR_NO_RESOURCE, d')).
Proof.
  intros desc d d' H.
  destruct (dfudf_enable_ok_inv _ _ _ H)
    as (ifc & n & Hs & Hn & Hc & Hp & H255 & Hne & ->).
  split.
  - destruct desc as [s]. cbn in Hs. subst s.
    rewrite (dfudf_enable_dfu_class ifc n (bind_iface n true d) Hn Hc Hp). cbn.
    rewrite Z.eqb_refl. reflexivity.
  - intros ifc' m Hm Hc' Hdiff. cbn in Hdiff.
    rewrite (dfudf_enable_dfu_class ifc' m (bind_iface n true d) Hm Hc' Hp). cbn.
    destruct (Z.eqb_spec n m); [congruence |].
    destruct (Z.eqb_spec n 255); [congruence |]. reflexivity.
Qed.

Lemma enable_twice_is_refused_witness :
  dfudf_enable (iface_desc 3 254) (bind_iface 3 true (module_bound 255 false))
    = Some (ERR_ALREADY_INITIALIZED, bind_iface 3 true (module_bound 255 false)).
Proof.
  exact (proj1 (enable_twice_is_refused (iface_desc 3 254) (module_bound 255 false)
                  (bind_iface 3 true (module_bound 255 false)) eq_refl)).
Defined.

(** X4. [dfudf_disable] either unbinds (interface number 0xFF, function
    not enabled, [ERR_NONE]) or, for a descriptor that is not of the DFU
    class, reports "not found" and changes nothing; with a NULL
    descriptor it always unbinds. *)
Theorem disable_unbinds_or_refuses :
  forall desc d r d',
    dfudf_disable desc d = Some (r, d') ->
    (r = ERR_NONE /\ d' = bind_iface 255 false d /\
     func_iface (dfu d') = 255 /\ dfudf_is_enabled d' = false /\
     (desc = None \/
      exists ds ifc, desc = Some ds /\ sod ds = Some ifc /\
                     read_u8 ifc 5 = Some USB_DFU_CLASS)) \/
    (r = ERR_NOT_FOUND /\ d' = d /\
     exists ds ifc c, desc = Some ds /\ sod ds = Some ifc /\
                      read_u8 ifc 5 = Some c /\ c <> USB_DFU_CLASS).
Proof.
  intros desc d r d' H. unfold dfudf_disable in H.
  destruct desc as [ds |].
  - destruct (sod ds) as [ifc |] eqn:Hs; [| discriminate H].
    destruct (read_u8 ifc 5) as [c |] eqn:Hc; [| discriminate H].
    destruct (Z.eqb_spec c USB_DFU_CLASS) as [-> | Hne]; cbn in H.
    + destruct (dfudf_func_data_ptr d); [| discriminate H].
      injection H as <- <-. left. repeat split.
      right. exists ds, ifc. repeat split; assumption.
    + injection H as <- <-. right. repeat split.
      exists ds, ifc, c. repeat split; assumption.
  - destruct (dfudf_func_data_ptr d); [| discriminate H].
    injection H as <- <-. left. repeat split. left. reflexivity.
Qed.

Lemma disable_unbinds_or_refuses_witness :
  func_iface (dfu (bind_iface 255 false (module_bound 3 true))) = 255 /\
  dfudf_is_enabled (bind_iface 255 false (module_bound 3 true)) = false.
Proof.
  destruct (disable_unbinds_or_refuses None (module_bound 3 true) ERR_NONE
              (bind_iface 255 false (module_bound 3 true)) eq_refl)
    as [(_ & _ & Hi & He & _) | (Hr & _)].
  - split; assumption.
  - discriminate Hr.
Defined.

(** X5. Whatever the module was bound to, a [dfudf_disable] with a NULL
    descriptor followed by [dfudf_enable] with a DFU descriptor whose
    interface number is not 0xFF binds that number and leaves the
    function enabled. *)
Theorem disable_then_enable_binds :
  forall d ifc n,
    dfudf_func_data_ptr d = true ->
    read_u8 ifc 2 = Some n ->
    read_u8 ifc 5 = Some USB_DFU_CLASS ->
    n <> 255 ->
    exists d1 d2,
      dfudf_disable None d = Some (ERR_NONE, d1) /\
      dfudf_enable {| sod := Some ifc |} d1 = Some (ERR_NONE, d2) /\
      func_iface (dfu d2) = n /\
      dfudf_is_enabled d2 = true /\
      dfu_state (dfu d2) = dfu_state (dfu d) /\
      dfu_status (dfu d2) = dfu_status (dfu d).
Proof.
  intros d ifc n Hp Hn Hc Hne.
  exists (bind_iface 255 false d), (bind_iface n true (bind_iface 255 false d)).
  split; [| split].
  - unfold dfudf_disable. rewrite Hp. reflexivity.
  - rewrite (dfudf_enable_dfu_class ifc n (bind_iface 255 false d) Hn Hc Hp).
    change (func_iface (dfu (bind_iface 255 false d))) with 255.
    destruct (Z.eqb_spec 255 n); [congruence | reflexivity].
  - repeat split.
Qed.

Lemma disable_then_enable_binds_witness :
  exists d1 d2,
    dfudf_disable None (module_bound 7 true) = Some (ERR_NONE, d1) /\
    dfudf_enable (iface_desc 3 254) d1 = Some (ERR_NONE, d2) /\
    func_iface (dfu d2) = 3 /\
    dfudf_is_enabled d2 = true.
Proof.
  assert (Hne : 3 <> 255) by discriminate.
  destruct (disable_then_enable_binds (module_bound 7 true)
              [9; 4; 3; 0; 0; 254; 1; 2; 0] 3 eq_refl eq_refl eq_refl Hne)
    as (d1 & d2 & H1 & H2 & H3 & H4 & _).
  exists d1, d2. repeat split; assumption.
Defined.

(** X6. A module that has only been initialised cannot be enabled:
    [func_iface] starts at zero, not at 0xFF, so [dfudf_ctrl] with
    [USBDF_ENABLE] never returns [ERR_NONE] and never changes the
    module, whatever the descriptor and whatever state the device core
    was in at [dfudf_init]. For a DFU descriptor it reports "already
    initialized" for interface 0 and "no resource" for any other. *)
Theorem fresh_module_cannot_enable :
  forall data st desc r d',
    dfudf_ctrl USBDF_ENABLE (Some desc)
      (snd (dfudf_init st (dfudf_module_initial data))) = Some (r, d') ->
    r <> ERR_NONE /\
    d' = snd (dfudf_init st (dfudf_module_initial data)) /\
    dfudf_is_enabled d' = false /\
    (forall ifc n,
        sod desc = Some ifc ->
        read_u8 ifc 2 = Some n ->
        read_u8 ifc 5 = Some USB_DFU_CLASS ->
        r = if n =? 0 then ERR_ALREADY_INITIALIZED else ERR_NO_RESOURCE).
Proof.
  intros data st desc r d' H. unfold dfudf_ctrl in H. cbn [Z.eqb USBDF_ENABLE] in H.
  assert (Hi : func_iface (dfu (snd (dfudf_init st (dfudf_module_initial data)))) = 0)
    by (unfold dfudf_init; destruct (USBD_S_POWER <? st); reflexivity).
  assert (He : enabled (snd (dfudf_init st (dfudf_module_initial data))) = false)
    by (unfold dfudf_init; destruct (USBD_S_POWER <? st); reflexivity).
  assert (Hr : r <> ERR_NONE).
  { intros ->. destruct (dfudf_enable_ok_inv _ _ _ H)
      as (_ & _ & _ & _ & _ & _ & H255 & _). rewrite Hi in H255. discriminate H255. }
  pose proof (dfudf_enable_error_inv _ _ _ _ H Hr) as ->.
  repeat split; try assumption.
  intros ifc n Hs Hn Hc. unfold dfudf_enable in H. rewrite Hs, Hn, Hc in H.
  cbn in H. rewrite Hi in H.
  destruct (dfudf_func_data_ptr _); [| discriminate H].
  rewrite Z.eqb_sym in H. destruct (n =? 0); cbn in H; congruence.
Qed.

Lemma fresh_module_cannot_enable_witness :
  ERR_NO_RESOURCE <> ERR_NONE /\
  dfudf_is_enabled (snd (dfudf_init 0 (dfudf_module_initial []))) = false.
Proof.
  destruct (fresh_module_cannot_enable [] 0 (iface_desc 3 254) ERR_NO_RESOURCE
              (snd (dfudf_init 0 (dfudf_module_initial []))) eq_refl)
    as (Hr & Hd & He & _).
  split; assumption.
Defined.

(** ** What the handlers leave alone *)

Ltac unfold_monad :=
  unfold bind, ret, read, set_dfu_state, set_dfu_status,
    set_dfu_download_length, set_dfu_download_offset,
    set_dfu_manifestation_complete, usbdc_xfer; cbn.

(** The inbound handler writes [dfu_state] and queues transfers, and
    nothing else. *)
Lemma in_req_frame :
  forall env ep req stage w,
    let w' := exec (dfudf_in_req env ep req stage) w in
    dfu_status w' = dfu_status w /\
    dfu_download_data w' = dfu_download_data w /\
    dfu_download_length w' = dfu_download_length w /\
    dfu_download_offset w' = dfu_download_offset w /\
    dfu_manifestation_complete w' = dfu_manifestation_complete w /\
    func_iface w' = func_iface w.
Proof.
  intros env ep req stage w. cbv zeta.
  in_req_cases req stage; unfold_monad;
    try (repeat split; reflexivity);
    destruct (dfu_state w); cbn; split_tests; repeat split; reflexivity.
Qed.

(** The outbound handler never writes the staging buffer nor the bound
    interface number. *)
Lemma out_req_frame :
  forall env ep req stage w,
    let w' := exec (dfudf_out_req env ep req stage) w in
    dfu_download_data w' = dfu_download_data w /\
    func_iface w' = func_iface w.
Proof.
  intros env ep req stage w. cbv zeta.
  out_req_cases req; unfold_monad;
    try (split; reflexivity);
    destruct (dfu_state w); cbn; split_tests; split; reflexivity.
Qed.

(** The three ways [dfudf_req] can go. *)
Lemma dfudf_req_cases :
  forall env ep req stage w,
    dfudf_req env ep req stage w = (ERR_NOT_FOUND, w) \/
    dfudf_req env ep req stage w = dfudf_in_req env ep req stage w \/
    dfudf_req env ep req stage w = dfudf_out_req env ep req stage w.
Proof.
  intros env ep req stage w. rewrite dfudf_req_dispatch.
  destruct (negb _); [left; reflexivity |].
  destruct (wIndex req =? func_iface w); [| left; reflexivity].
  destruct (negb _); [right; left | right; right]; reflexivity.
Qed.

Lemma dfudf_req_keeps_func_iface :
  forall env ep req stage w,
    func_iface (exec (dfudf_req env ep req stage) w) = func_iface w.
Proof.
  intros env ep req stage w. unfold exec.
  destruct (dfudf_req_cases env ep req stage w) as [-> | [-> | ->]].
  - reflexivity.
  - apply (in_req_frame env ep req stage w).
  - apply (out_req_frame env ep req stage w).
Qed.

(** X7. Request handling and interface binding do not interfere:
    [dfudf_req] returns "not found" and changes nothing for a request
    that is not a class request or whose wIndex is not the bound
    interface number, and in every case it leaves the bound interface
    number and the staging buffer as they were. *)
Theorem dfudf_req_ignores_foreign_requests :
  forall env ep req stage w,
    (Z.land (Z.shiftr (bmRequestType req) 5) 3 <> 1 \/ wIndex req <> func_iface w ->
     dfudf_req env ep req stage w = (ERR_NOT_FOUND, w)) /\
    func_iface (exec (dfudf_req env ep req stage) w) = func_iface w /\
    dfu_download_data (exec (dfudf_req env ep req stage) w) = dfu_download_data w.
Proof.
  intros env ep req stage w. split; [| split].
  - intros [Hclass | Hidx]; rewrite dfudf_req_dispatch.
    + destruct (Z.eqb_spec (Z.land (Z.shiftr (bmRequestType req) 5) 3) 1);
        [contradiction | reflexivity].
    + destruct (negb _); [reflexivity |].
      destruct (Z.eqb_spec (wIndex req) (func_iface w));
        [contradiction | reflexivity].
  - apply dfudf_req_keeps_func_iface.
  - unfold exec.
    destruct (dfudf_req_cases env ep req stage w) as [-> | [-> | ->]].
    + reflexivity.
    + apply (in_req_frame env ep req stage w).
    + apply (out_req_frame env ep req stage w).
Qed.

Lemma dfudf_req_ignores_foreign_requests_witness :
  dfudf_req env_download 0 (mk_usb_req 33 6 0 1 0) USB_SETUP_STAGE
    (world_in USB_DFU_STATE_DFU_DNBUSY USB_DFU_STATUS_OK false)
  = (ERR_NOT_FOUND, world_in USB_DFU_STATE_DFU_DNBUSY USB_DFU_STATUS_OK false) /\
  dfudf_req env_download 0 (mk_usb_req 1 6 0 0 0) USB_SETUP_STAGE
    (world_in USB_DFU_STATE_DFU_DNBUSY USB_DFU_STATUS_OK false)
  = (ERR_NOT_FOUND, world_in USB_DFU_STATE_DFU_DNBUSY USB_DFU_STATUS_OK false).
Proof.
  split.
  - apply (proj1 (dfudf_req_ignores_foreign_requests env_download 0
                    (mk_usb_req 33 6 0 1 0) USB_SETUP_STAGE
                    (world_in USB_DFU_STATE_DFU_DNBUSY USB_DFU_STATUS_OK false))).
    right. discriminate.
  - apply (proj1 (dfudf_req_ignores_foreign_requests env_download 0
                    (mk_usb_req 1 6 0 0 0) USB_SETUP_STAGE
                    (world_in USB_DFU_STATE_DFU_DNBUSY USB_DFU_STATUS_OK false))).
    left. discriminate.
Defined.

(** X8. The inbound handler writes nothing but [dfu_state] and the
    record of transfers: status, staged data, length, offset,
    manifestation flag and bound interface are the same after any
    inbound request, at any stage. *)
Theorem inbound_writes_state_only :
  forall env ep req stage w,
    let w' := exec (dfudf_in_req env ep req stage) w in
    dfu_status w' = dfu_status w /\
    dfu_download_data w' = dfu_download_data w /\
    dfu_download_length w' = dfu_download_length w /\
    dfu_download_offset w' = dfu_download_offset w /\
    dfu_manifestation_complete w' = dfu_manifestation_complete w /\
    func_iface w' = func_iface w.
Proof. exact in_req_frame. Qed.

(** What a successful [dfudf_ctrl] call can do to the module. *)
Lemma dfudf_ctrl_effect :
  forall ctrl param d r d',
    dfudf_ctrl ctrl param d = Some (r, d') ->
    d' = d \/
    d' = bind_iface 255 false d \/
    exists ifc n, read_u8 ifc 2 = Some n /\ n <> 255 /\ d' = bind_iface n true d.
Proof.
  intros ctrl param d r d' H. unfold dfudf_ctrl in H.
  destruct (ctrl =? USBDF_ENABLE).
  - destruct param as [desc |]; [| discriminate H].
    destruct (Z.eq_dec r ERR_NONE) as [-> | Hr].
    + destruct (dfudf_enable_ok_inv _ _ _ H)
        as (ifc & n & _ & Hn & _ & _ & _ & Hne & ->).
      right. right. exists ifc, n. repeat split; assumption.
    + left. exact (dfudf_enable_error_inv _ _ _ _ H Hr).
  - destruct (ctrl =? USBDF_DISABLE).
    + unfold dfudf_disable in H. destruct param as [ds |].
      * destruct (sod ds) as [ifc |]; [| discriminate H].
        destruct (read_u8 ifc 5) as [c |]; [| discriminate H].
        destruct (negb (c =? USB_DFU_CLASS)).
        -- left. congruence.
        -- destruct (dfudf_func_data_ptr d); [| discriminate H].
           right. left. congruence.
      * destruct (dfudf_func_data_ptr d); [| discriminate H].
        right. left. congruence.
    + left. destruct (ctrl =? USBDF_GET_IFACE); congruence.
Qed.

(** X9. In every module state reachable through [dfudf_init],
    [dfudf_ctrl] and the request handler, the bound interface number is
    a byte, and an enabled function is bound to a number other than
    0xFF. *)
Theorem binding_consistent_reachable :
  forall env d, module_reachable env d -> binding_consistent d.
Proof.
  intros env d Hreach. induction Hreach as
      [data | st d _ IH | ctrl param d r d' _ IH Hctrl | ep req stage d _ IH].
  - split; cbn; [lia | discriminate].
  - unfold dfudf_init. destruct (USBD_S_POWER <? st); exact IH.
  - destruct (dfudf_ctrl_effect _ _ _ _ _ Hctrl)
      as [-> | [-> | (ifc & n & Hn & Hne & ->)]].
    + exact IH.
    + split; cbn; [lia | discriminate].
    + split; cbn; [exact (read_u8_range _ _ _ Hn) | intros _; exact Hne].
  - destruct IH as [Hrange Hen]. unfold dfudf_req_h, binding_consistent.
    pose proof (dfudf_req_keeps_func_iface env ep req stage (dfu d)) as Hkeep.
    unfold exec in Hkeep.
    destruct (dfudf_req env ep req stage (dfu d)) as [r w]. cbn in *.
    rewrite Hkeep. split; assumption.
Qed.

Lemma binding_consistent_reachable_witness :
  binding_consistent
    (bind_iface 3 true
       (bind_iface 255 false (snd (dfudf_init 0 (dfudf_module_initial []))))).
Proof.
  apply (binding_consistent_reachable env_download).
  apply (module_ctrl env_download USBDF_ENABLE (Some (iface_desc 3 254))
           (bind_iface 255 false (snd (dfudf_init 0 (dfudf_module_initial []))))
           ERR_NONE).
  - apply (module_ctrl env_download USBDF_DISABLE None
             (snd (dfudf_init 0 (dfudf_module_initial []))) ERR_NONE).
    + apply module_init. apply module_initial.
    + reflexivity.
  - reflexivity.
Defined.

(** X10. [dfudf_ctrl] never touches the upgrade state machine: state,
    status, staged data, length, offset, manifestation flag and the
    record of transfers are the same after any control call, and so are
    the registrations; an unsupported or unknown control code changes
    nothing at all. *)
Theorem ctrl_leaves_state_machine_alone :
  forall ctrl param d r d',
    dfudf_ctrl ctrl param d = Some (r, d') ->
    dfu_state (dfu d') = dfu_state (dfu d) /\
    dfu_status (dfu d') = dfu_status (dfu d) /\
    dfu_download_data (dfu d') = dfu_download_data (dfu d) /\
    dfu_download_length (dfu d') = dfu_download_length (dfu d) /\
    dfu_download_offset (dfu d') = dfu_download_offset (dfu d) /\
    dfu_manifestation_complete (dfu d') = dfu_manifestation_complete (dfu d) /\
    xfers (dfu d') = xfers (dfu d) /\
    usbdc_calls d' = usbdc_calls d /\
    (ctrl <> USBDF_ENABLE -> ctrl <> USBDF_DISABLE ->
     d' = d /\
     r = if ctrl =? USBDF_GET_IFACE then ERR_UNSUPPORTED_OP else ERR_INVALID_ARG).
Proof.
  intros ctrl param d r d' H.
  assert (Hother : ctrl <> USBDF_ENABLE -> ctrl <> USBDF_DISABLE ->
                   d' = d /\
                   r = if ctrl =? USBDF_GET_IFACE then ERR_UNSUPPORTED_OP
                       else ERR_INVALID_ARG).
  { intros He Hd. unfold dfudf_ctrl in H.
    destruct (Z.eqb_spec ctrl USBDF_ENABLE); [contradiction |].
    destruct (Z.eqb_spec ctrl USBDF_DISABLE); [contradiction |].
    destruct (ctrl =? USBDF_GET_IFACE); inversion H; split; reflexivity. }
  destruct (dfudf_ctrl_effect _ _ _ _ _ H) as [-> | [-> | (ifc & n & _ & _ & ->)]];
    repeat match goal with |- _ /\ _ => split end; try reflexivity; exact Hother.
Qed.

Lemma ctrl_leaves_state_machine_alone_witness :
  dfu_state (dfu (bind_iface 255 false (module_bound 3 true)))
    = dfu_state (dfu (module_bound 3 true)) /\
  xfers (dfu (bind_iface 255 false (module_bound 3 true)))
    = xfers (dfu (module_bound 3 true)).
Proof.
  destruct (ctrl_leaves_state_machine_alone USBDF_DISABLE None (module_bound 3 true)
              ERR_NONE (bind_iface 255 false (module_bound 3 true)) eq_refl)
    as (Hs & _ & _ & _ & _ & _ & Hx & _).
  split; assumption.
Defined.

(** X11. Bring-up: on a device core that is not past the power state,
    [dfudf_init] followed by a [USBDF_DISABLE] with a NULL descriptor
    and a [USBDF_ENABLE] with a DFU descriptor for interface [n] (not
    0xFF) all succeed; the function is then enabled, both registrations
    were made, function first, and a class request for interface [n] is
    handed to the handler of its direction while the same request for
    another interface is not found. *)
Theorem init_disable_enable_serves_interface :
  forall env data st ifc n,
    st <= USBD_S_POWER ->
    read_u8 ifc 2 = Some n ->
    read_u8 ifc 5 = Some USB_DFU_CLASS ->
    n <> 255 ->
    exists d1 d2,
      fst (dfudf_init st (dfudf_module_initial data)) = ERR_NONE /\
      dfudf_ctrl USBDF_DISABLE None (snd (dfudf_init st (dfudf_module_initial data)))
        = Some (ERR_NONE, d1) /\
      dfudf_ctrl USBDF_ENABLE (Some {| sod := Some ifc |}) d1 = Some (ERR_NONE, d2) /\
      dfudf_is_enabled d2 = true /\
      usbdc_calls d2 = [Usbdc_register_function; Usbdc_register_handler] /\
      dfu_state (dfu d2) = USB_DFU_STATE_DFU_IDLE /\
      (forall ep req stage,
          Z.land (Z.shiftr (bmRequestType req) 5) 3 = 1 ->
          (wIndex req = n ->
           dfudf_req env ep req stage (dfu d2) =
             if negb (Z.land (bmRequestType req) USB_EP_DIR_IN =? 0)
             then dfudf_in_req env ep req stage (dfu d2)
             else dfudf_out_req env ep req stage (dfu d2)) /\
          (wIndex req <> n ->
           dfudf_req env ep req stage (dfu d2) = (ERR_NOT_FOUND, dfu d2))).
Proof.
  intros env data st ifc n Hst Hn Hc Hne.
  assert (Hinit : dfudf_init st (dfudf_module_initial data) =
                  (ERR_NONE,
                   {| dfu := dfu_initial data; enabled := false;
                      dfudf_ctrl_ptr := true; dfudf_func_data_ptr := true;
                      usbdc_calls := [Usbdc_register_function; Usbdc_register_handler] |})).
  { unfold dfudf_init. destruct (Z.ltb_spec USBD_S_POWER st); [lia | reflexivity]. }
  rewrite Hinit. cbn [fst snd].
  set (d0 := {| dfu := dfu_initial data; enabled := false;
                dfudf_ctrl_ptr := true; dfudf_func_data_ptr := true;
                usbdc_calls := [Usbdc_register_function; Usbdc_register_handler] |}).
  exists (bind_iface 255 false d0), (bind_iface n true (bind_iface 255 false d0)).
  split; [reflexivity |]. split; [reflexivity |].
  split.
  - unfold dfudf_ctrl. cbn [Z.eqb USBDF_ENABLE].
    rewrite (dfudf_enable_dfu_class ifc n (bind_iface 255 false d0) Hn Hc eq_refl).
    change (func_iface (dfu (bind_iface 255 false d0))) with 255.
    destruct (Z.eqb_spec 255 n); [congruence | reflexivity].
  - split; [reflexivity |]. split; [reflexivity |]. split; [reflexivity |].
    intros ep req stage Hclass.
    split; intros Hidx; rewrite dfudf_req_dispatch, Hclass;
      change (func_iface (dfu (bind_iface n true (bind_iface 255 false d0)))) with n;
      cbn [negb Z.eqb Pos.eqb].
    + rewrite Hidx, Z.eqb_refl. reflexivity.
    + destruct (Z.eqb_spec (wIndex req) n); [contradiction | reflexivity].
Qed.

Lemma init_disable_enable_serves_interface_witness :
  exists d1 d2,
    fst (dfudf_init 1 (dfudf_module_initial [])) = ERR_NONE /\
    dfudf_ctrl USBDF_DISABLE None (snd (dfudf_init 1 (dfudf_module_initial [])))
      = Some (ERR_NONE, d1) /\
    dfudf_ctrl USBDF_ENABLE (Some (iface_desc 3 254)) d1 = Some (ERR_NONE, d2) /\
    dfudf_is_enabled d2 = true.
Proof.
  assert (Hst : 1 <= USBD_S_POWER) by (unfold USBD_S_POWER; lia).
  assert (Hne : 3 <> 255) by discriminate.
  destruct (init_disable_enable_serves_interface env_download [] 1
              [9; 4; 3; 0; 0; 254; 1; 2; 0] 3 Hst eq_refl eq_refl Hne)
    as (d1 & d2 & H0 & H1 & H2 & H3 & _).
  exists d1, d2. repeat split; assumption.
Defined.

(** ** Transfers and return values *)

(** X12. A handler call queues at most one transfer, at the end of the
    record, and then returns what the transfer primitive returned for
    it. An outbound call that queues nothing returns InvalidArgument or
    UnsupportedOp; an inbound call that queues nothing returns one of
    these or, at the data stage, [ERR_NONE]. *)
Theorem handler_queues_at_most_one_transfer :
  forall env ep req stage w,
    ((xfers (exec (dfudf_in_req env ep req stage) w) = xfers w /\
      (result (dfudf_in_req env ep req stage) w = ERR_INVALID_ARG \/
       result (dfudf_in_req env ep req stage) w = ERR_UNSUPPORTED_OP \/
       (stage = USB_DATA_STAGE /\
        result (dfudf_in_req env ep req stage) w = ERR_NONE))) \/
     exists x,
       xfers (exec (dfudf_in_req env ep req stage) w) = xfers w ++ [x] /\
       result (dfudf_in_req env ep req stage) w = usbdc_xfer_status env (xfers w) x) /\
    ((xfers (exec (dfudf_out_req env ep req stage) w) = xfers w /\
      (result (dfudf_out_req env ep req stage) w = ERR_INVALID_ARG \/
       result (dfudf_out_req env ep req stage) w = ERR_UNSUPPORTED_OP)) \/
     exists x,
       xfers (exec (dfudf_out_req env ep req stage) w) = xfers w ++ [x] /\
       result (dfudf_out_req env ep req stage) w = usbdc_xfer_status env (xfers w) x).
Proof.
  intros env ep req stage w. split.
  - in_req_cases req stage; unfold_monad;
      try (left; split; [reflexivity |]; solve [auto]);
      try (right; eexists; split; reflexivity);
      destruct (dfu_state w); cbn; split_tests;
      right; eexists; split; reflexivity.
  - out_req_cases req; unfold_monad;
      try (left; split; [reflexivity |]; solve [auto]);
      try (right; eexists; split; reflexivity);
      destruct (dfu_state w), (dfu_status w); cbn; split_tests;
      solve [ left; split; [reflexivity |]; auto
            | right; eexists; split; reflexivity ].
Qed.

(** ** The staged block *)

(** Reduction of the record projections only, so that the tests on the
    request fields stay as the source writes them. *)
Ltac project :=
  cbn [snd fst dfu_state dfu_status dfu_download_data dfu_download_length
       dfu_download_offset dfu_manifestation_complete func_iface xfers].

Ltac unfold_handler :=
  unfold bind, ret, read, set_dfu_state, set_dfu_status,
    set_dfu_download_length, set_dfu_download_offset,
    set_dfu_manifestation_complete, usbdc_xfer; project.

Ltac split_ifs :=
  repeat match goal with
         | |- context [if ?b then _ else _] => destruct b; project
         end.

(** What the outbound handler can do to the staged offset and length:
    nothing, reset the offset (ABORT), or record an accepted fragment,
    whose length then fits the staging buffer. *)
Lemma out_req_staged :
  forall env ep req stage w,
    let w' := exec (dfudf_out_req env ep req stage) w in
    (dfu_download_length w' = dfu_download_length w /\
     (dfu_download_offset w' = dfu_download_offset w \/
      dfu_download_offset w' = 0)) \/
    (wLength req <= sizeof_dfu_download_data /\
     dfu_download_length w' = to_uint16 (wLength req) /\
     dfu_download_offset w' = to_size_t (wValue req * sizeof_dfu_download_data)).
Proof.
  intros env ep req stage w. cbv zeta.
  out_req_cases req; unfold_handler;
    try (left; split; [reflexivity | auto]).
  - split_ifs; left; split; auto.
  - destruct (Z.ltb_spec sizeof_dfu_download_data (wLength req)) as [Hbig | Hfit];
      split_ifs;
      solve [ left; split; auto
            | right; repeat split; solve [reflexivity | lia] ].
Qed.

(** X13. The staged block stays within bounds: for a well-formed setup
    packet, if the staged length is at most 512 and the staged offset is
    a non-negative multiple of 512, the same holds after any outbound or
    inbound request. *)
Theorem staged_block_stays_in_bounds :
  forall env ep req stage w,
    usb_req_wf req ->
    staged_in_bounds w ->
    staged_in_bounds (exec (dfudf_out_req env ep req stage) w) /\
    staged_in_bounds (exec (dfudf_in_req env ep req stage) w).
Proof.
  intros env ep req stage w (_ & _ & Hval & _ & Hlen) (Hl & Ho & Hm).
  unfold staged_in_bounds, sizeof_dfu_download_data in *. split.
  - destruct (out_req_staged env ep req stage w)
      as [(-> & [-> | ->]) | (Hfit & -> & ->)];
      unfold sizeof_dfu_download_data, to_uint16, to_size_t in *.
    + repeat split; assumption || lia.
    + repeat split; (reflexivity || lia).
    + rewrite (Z.mod_small (wLength req)) by lia.
      rewrite (Z.mod_small (wValue req * 512)) by lia.
      split; [lia | split; [lia | apply Z.mod_mul; lia]].
  - destruct (in_req_frame env ep req stage w) as (_ & _ & -> & -> & _).
    repeat split; assumption || lia.
Qed.

Lemma staged_block_stays_in_bounds_witness :
  staged_in_bounds
    (exec (dfudf_out_req env_download 0 (out_request 1 3 64) USB_DATA_STAGE)
       (dfu_initial (repeat 0 512))).
Proof.
  apply (staged_block_stays_in_bounds env_download 0 (out_request 1 3 64)
           USB_DATA_STAGE (dfu_initial (repeat 0 512))).
  - unfold usb_req_wf. cbn. lia.
  - unfold staged_in_bounds, sizeof_dfu_download_data. cbn.
    repeat split; try lia.
Defined.

(** X14. Two fragments accepted in the data phase for different block
    indices are staged at disjoint address ranges: for well-formed
    packets with block index [wValue r1 < wValue r2], the first block
    ends at or before the offset of the second, and each offset is the
    block index times 512, without wrap-around. *)
Theorem accepted_blocks_do_not_overlap :
  forall env ep r1 r2 s1 s2 w1 w2,
    download_enabled env ->
    usb_req_wf r1 -> usb_req_wf r2 ->
    bRequest r1 = USB_DFU_DNLOAD -> bRequest r2 = USB_DFU_DNLOAD ->
    0 < wLength r1 <= sizeof_dfu_download_data ->
    0 < wLength r2 <= sizeof_dfu_download_data ->
    s1 <> USB_SETUP_STAGE -> s2 <> USB_SETUP_STAGE ->
    dfu_state w1 = USB_DFU_STATE_DFU_IDLE \/
      dfu_state w1 = USB_DFU_STATE_DFU_DNLOAD_IDLE ->
    dfu_state w2 = USB_DFU_STATE_DFU_IDLE \/
      dfu_state w2 = USB_DFU_STATE_DFU_DNLOAD_IDLE ->
    wValue r1 < wValue r2 ->
    let a := exec (dfudf_out_req env ep r1 s1) w1 in
    let b := exec (dfudf_out_req env ep r2 s2) w2 in
    dfu_download_offset a = wValue r1 * 512 /\
    dfu_download_offset b = wValue r2 * 512 /\
    dfu_download_offset a + dfu_download_length a <= dfu_download_offset b.
Proof.
  intros env ep r1 r2 s1 s2 w1 w2 Hen (_ & _ & Hv1 & _ & Hl1) (_ & _ & Hv2 & _ & Hl2)
    Hr1 Hr2 Hlen1 Hlen2 Hs1 Hs2 Hw1 Hw2 Hlt. cbv zeta.
  destruct (download_fragment_accepted env ep r1 s1 w1 Hen Hr1 Hlen1 Hs1 Hw1)
    as (_ & Ho1 & Hn1 & _).
  destruct (download_fragment_accepted env ep r2 s2 w2 Hen Hr2 Hlen2 Hs2 Hw2)
    as (_ & Ho2 & _).
  rewrite Ho1, Ho2, Hn1.
  unfold to_size_t, to_uint16, sizeof_dfu_download_data in *.
  rewrite (Z.mod_small (wValue r1 * 512)) by lia.
  rewrite (Z.mod_small (wValue r2 * 512)) by lia.
  rewrite (Z.mod_small (wLength r1)) by lia.
  repeat split; lia.
Qed.

Lemma accepted_blocks_do_not_overlap_witness :
  let a := exec (dfudf_out_req env_download 0 (out_request 1 2 512) USB_DATA_STAGE)
             (world_in USB_DFU_STATE_DFU_IDLE USB_DFU_STATUS_OK false) in
  let b := exec (dfudf_out_req env_download 0 (out_request 1 3 64) USB_DATA_STAGE)
             (world_in USB_DFU_STATE_DFU_DNLOAD_IDLE USB_DFU_STATUS_OK false) in
  dfu_download_offset a = 2 * 512 /\
  dfu_download_offset b = 3 * 512 /\
  dfu_download_offset a + dfu_download_length a <= dfu_download_offset b.
Proof.
  assert (Hdata : USB_DATA_STAGE <> USB_SETUP_STAGE) by discriminate.
  apply (accepted_blocks_do_not_overlap env_download 0
           (out_request 1 2 512) (out_request 1 3 64)
           USB_DATA_STAGE USB_DATA_STAGE
           (world_in USB_DFU_STATE_DFU_IDLE USB_DFU_STATUS_OK false)
           (world_in USB_DFU_STATE_DFU_DNLOAD_IDLE USB_DFU_STATUS_OK false)).
  - reflexivity.
  - unfold usb_req_wf. cbn. lia.
  - unfold usb_req_wf. cbn. lia.
  - reflexivity.
  - reflexivity.
  - unfold sizeof_dfu_download_data. cbn. lia.
  - unfold sizeof_dfu_download_data. cbn. lia.
  - exact Hdata.
  - exact Hdata.
  - left. reflexivity.
  - right. reflexivity.
  - cbn. lia.
Defined.

(** X15. In the setup stage an acceptable DNLOAD (download enabled,
    state Idle or DnloadIdle, length between 1 and 512) only arms the
    control endpoint to receive [wLength] bytes into the staging
    buffer: no global changes, and the handler returns the transfer
    primitive's status. *)
Theorem download_setup_arms_receive :
  forall env ep req w,
    download_enabled env ->
    bRequest req = USB_DFU_DNLOAD ->
    0 < wLength req <= sizeof_dfu_download_data ->
    dfu_state w = USB_DFU_STATE_DFU_IDLE \/
      dfu_state w = USB_DFU_STATE_DFU_DNLOAD_IDLE ->
    let x := mk_usb_xfer ep BufDownloadData (wLength req) false in
    let w' := exec (dfudf_out_req env ep req USB_SETUP_STAGE) w in
    xfers w' = xfers w ++ [x] /\
    result (dfudf_out_req env ep req USB_SETUP_STAGE) w
      = usbdc_xfer_status env (xfers w) x /\
    dfu_state w' = dfu_state w /\
    dfu_status w' = dfu_status w /\
    dfu_download_offset w' = dfu_download_offset w /\
    dfu_download_length w' = dfu_download_length w /\
    dfu_manifestation_complete w' = dfu_manifestation_complete w.
Proof.
  intros env ep req w Hen Hreq Hlen Hstate.
  unfold download_enabled in Hen. unfold sizeof_dfu_download_data in Hlen.
  assert (Hz : (0 =? wLength req) = false) by (apply Z.eqb_neq; lia).
  assert (Hbig : (512 <? wLength req) = false) by (apply Z.ltb_ge; lia).
  cbv zeta. unfold exec, result, dfudf_out_req, sizeof_dfu_download_data.
  rewrite Hreq, Hen, Hz, Hbig. cbn.
  destruct Hstate as [Hs | Hs]; rewrite Hs; cbn; repeat split; exact Hs.
Qed.

Lemma download_setup_arms_receive_witness :
  xfers (exec (dfudf_out_req env_download 0 (out_request 1 0 64) USB_SETUP_STAGE)
           (dfu_initial (repeat 0 512)))
    = [mk_usb_xfer 0 BufDownloadData 64 false].
Proof.
  assert (Hlen : 0 < 64 <= sizeof_dfu_download_data)
    by (unfold sizeof_dfu_download_data; lia).
  exact (proj1 (download_setup_arms_receive env_download 0 (out_request 1 0 64)
                  (dfu_initial (repeat 0 512)) eq_refl eq_refl Hlen
                  (or_introl eq_refl))).
Defined.

(** X16. On a download-capable device a DNLOAD request received in any
    state other than Idle and DnloadIdle is rejected whatever its length
    and stage: ProgramError, Error, InvalidArgument, nothing staged and
    nothing queued. *)
Theorem download_in_wrong_state_rejected :
  forall env ep req stage w,
    download_enabled env ->
    bRequest req = USB_DFU_DNLOAD ->
    dfu_state w <> USB_DFU_STATE_DFU_IDLE ->
    dfu_state w <> USB_DFU_STATE_DFU_DNLOAD_IDLE ->
    dnload_rejected env ep req stage w.
Proof.
  intros env ep req stage w Hen Hreq Hidle Hdn.
  unfold download_enabled in Hen.
  unfold dnload_rejected, exec, result, dfudf_out_req.
  rewrite Hreq, Hen. cbn.
  destruct (dfu_state w); try contradiction; cbn; repeat split.
Qed.

Lemma download_in_wrong_state_rejected_witness :
  dnload_rejected env_download 0 (out_request 1 0 64) USB_DATA_STAGE
    (world_in USB_DFU_STATE_DFU_DNBUSY USB_DFU_STATUS_OK false).
Proof.
  apply download_in_wrong_state_rejected; try reflexivity; discriminate.
Defined.

(** ** Sequences of requests *)

(** X17. End of a download: on a download-capable device, a DNLOAD of
    length zero received in DnloadIdle is acknowledged, clears the
    manifestation flag and moves to ManifestSync, leaving status and
    staged block alone; the next GETSTATUS poll reports ManifestSync
    and moves to Manifest. *)
Theorem empty_download_starts_manifestation :
  forall env ep req poll stage pstage w,
    download_enabled env ->
    bRequest req = USB_DFU_DNLOAD ->
    wLength req = 0 ->
    dfu_state w = USB_DFU_STATE_DFU_DNLOAD_IDLE ->
    bRequest poll = USB_DFU_GETSTATUS ->
    pstage <> USB_DATA_STAGE ->
    let w1 := exec (dfudf_out_req env ep req stage) w in
    let w2 := exec (dfudf_in_req env ep poll pstage) w1 in
    dfu_state w1 = USB_DFU_STATE_DFU_MANIFEST_SYNC /\
    dfu_manifestation_complete w1 = false /\
    dfu_status w1 = dfu_status w /\
    dfu_download_offset w1 = dfu_download_offset w /\
    dfu_download_length w1 = dfu_download_length w /\
    xfers w1 = xfers w ++ [ack ep] /\
    dfu_state w2 = USB_DFU_STATE_DFU_MANIFEST /\
    xfers w2 = xfers w ++ [ack ep; status_response ep w1].
Proof.
  intros env ep req poll stage pstage w Hen Hreq Hlen Hstate Hpoll Hps.
  unfold download_enabled in Hen. cbv zeta.
  assert (H1 : exec (dfudf_out_req env ep req stage) w =
               {| dfu_state := USB_DFU_STATE_DFU_MANIFEST_SYNC;
                  dfu_status := dfu_status w;
                  dfu_download_data := dfu_download_data w;
                  dfu_download_length := dfu_download_length w;
                  dfu_download_offset := dfu_download_offset w;
                  dfu_manifestation_complete := false;
                  func_iface := func_iface w;
                  xfers := xfers w ++ [ack ep] |}).
  { unfold exec, dfudf_out_req. rewrite Hreq, Hen, Hlen. cbn.
    rewrite Hstate. reflexivity. }
  rewrite H1. cbn [dfu_state dfu_status dfu_download_offset dfu_download_length
                     dfu_manifestation_complete xfers].
  repeat match goal with |- _ /\ _ => split end; try reflexivity.
  - destruct pstage; [| congruence |]; run_handler; rewrite Hpoll; reflexivity.
  - rewrite (getstatus_response env ep poll pstage _ Hpoll Hps).
    cbn [xfers dfu_status dfu_state]. rewrite <- app_assoc. reflexivity.
Qed.

Lemma empty_download_starts_manifestation_witness :
  let w := world_in USB_DFU_STATE_DFU_DNLOAD_IDLE USB_DFU_STATUS_OK true in
  let w1 := exec (dfudf_out_req env_download 0 (out_request 1 0 0) USB_SETUP_STAGE) w in
  let w2 := exec (dfudf_in_req env_download 0 (in_request 3 6) USB_SETUP_STAGE) w1 in
  dfu_state w1 = USB_DFU_STATE_DFU_MANIFEST_SYNC /\
  dfu_manifestation_complete w1 = false /\
  dfu_state w2 = USB_DFU_STATE_DFU_MANIFEST.
Proof.
  assert (Hps : USB_SETUP_STAGE <> USB_DATA_STAGE) by discriminate.
  pose proof (empty_download_starts_manifestation env_download 0 (out_request 1 0 0)
                (in_request 3 6) USB_SETUP_STAGE USB_SETUP_STAGE
                (world_in USB_DFU_STATE_DFU_DNLOAD_IDLE USB_DFU_STATUS_OK true)
                eq_refl eq_refl eq_refl eq_refl eq_refl Hps) as H.
  cbv zeta in H. destruct H as (H1 & H2 & _ & _ & _ & _ & H3 & _).
  repeat split; assumption.
Defined.

(** X18. Recovery: from any state and status, an ABORT followed by a
    CLRSTATUS brings the machine to Idle with status Ok and a zero
    offset, and queues exactly two zero-length acknowledgments. *)
Theorem abort_then_clrstatus_recovers :
  forall env ep abort clr s1 s2 w,
    bRequest abort = USB_DFU_ABORT ->
    bRequest clr = USB_DFU_CLRSTATUS ->
    let w2 := exec (dfudf_out_req env ep clr s2)
                (exec (dfudf_out_req env ep abort s1) w) in
    dfu_state w2 = USB_DFU_STATE_DFU_IDLE /\
    dfu_status w2 = USB_DFU_STATUS_OK /\
    dfu_download_offset w2 = 0 /\
    xfers w2 = xfers w ++ [ack ep; ack ep].
Proof.
  intros env ep abort clr s1 s2 w Habort Hclr. cbv zeta.
  run_handler. rewrite Habort, Hclr. cbn.
  destruct (dfu_status w) eqn:Hst; cbn; rewrite <- app_assoc;
    repeat split; assumption.
Qed.

Lemma abort_then_clrstatus_recovers_witness :
  let w2 := exec (dfudf_out_req env_download 0 (out_request 4 0 0) USB_SETUP_STAGE)
              (exec (dfudf_out_req env_download 0 (out_request 6 0 0) USB_SETUP_STAGE)
                 (world_in USB_DFU_STATE_DFU_ERROR USB_DFU_STATUS_ERR_PROG false)) in
  dfu_state w2 = USB_DFU_STATE_DFU_IDLE /\
  dfu_status w2 = USB_DFU_STATUS_OK /\
  dfu_download_offset w2 = 0 /\
  xfers w2 = [ack 0; ack 0].
Proof.
  exact (abort_then_clrstatus_recovers env_download 0 (out_request 6 0 0)
           (out_request 4 0 0) USB_SETUP_STAGE USB_SETUP_STAGE
           (world_in USB_DFU_STATE_DFU_ERROR USB_DFU_STATUS_ERR_PROG false)
           eq_refl eq_refl).
Defined.

(** A GETSTATUS poll outside DnloadSync and ManifestSync changes nothing
    but the record of transfers. *)
Lemma getstatus_steady :
  forall env ep req stage w,
    bRequest req = USB_DFU_GETSTATUS ->
    stage <> USB_DATA_STAGE ->
    dfu_state w <> USB_DFU_STATE_DFU_DNLOAD_SYNC ->
    dfu_state w <> USB_DFU_STATE_DFU_MANIFEST_SYNC ->
    exec (dfudf_in_req env ep req stage) w =
      {| dfu_state := dfu_state w;
         dfu_status := dfu_status w;
         dfu_download_data := dfu_download_data w;
         dfu_download_length := dfu_download_length w;
         dfu_download_offset := dfu_download_offset w;
         dfu_manifestation_complete := dfu_manifestation_complete w;
         func_iface := func_iface w;
         xfers := xfers w ++ [status_response ep w] |}.
Proof.
  intros env ep req stage w Hreq Hstage Hds Hms.
  destruct stage; [| congruence |]; run_handler; rewrite Hreq; cbn;
    rewrite state_code_uint8, status_code_uint8;
    unfold status_response;
    destruct (dfu_state w); try contradiction; cbn; reflexivity.
Qed.

(** X19. Polling is idempotent on the state outside the two sync
    states: [n] GETSTATUS polls in a row leave state, status and staged
    block as they were and queue [n] copies of the same 6-byte response
    carrying the current status and state. *)
Theorem repeated_polls_report_same_state :
  forall env ep req stage n w,
    bRequest req = USB_DFU_GETSTATUS ->
    stage <> USB_DATA_STAGE ->
    dfu_state w <> USB_DFU_STATE_DFU_DNLOAD_SYNC ->
    dfu_state w <> USB_DFU_STATE_DFU_MANIFEST_SYNC ->
    let w' := in_req_repeat env ep req stage n w in
    dfu_state w' = dfu_state w /\
    dfu_status w' = dfu_status w /\
    dfu_download_offset w' = dfu_download_offset w /\
    dfu_download_length w' = dfu_download_length w /\
    xfers w' = xfers w ++ repeat (status_response ep w) n.
Proof.
  intros env ep req stage n. induction n as [| n IH];
    intros w Hreq Hstage Hds Hms; cbv zeta.
  - cbn. rewrite app_nil_r. repeat split.
  - cbn [in_req_repeat repeat].
    pose proof (getstatus_steady env ep req stage w Hreq Hstage Hds Hms) as Hstep.
    assert (Hs : dfu_state (exec (dfudf_in_req env ep req stage) w) = dfu_state w)
      by (rewrite Hstep; reflexivity).
    assert (Hds' : dfu_state (exec (dfudf_in_req env ep req stage) w)
                   <> USB_DFU_STATE_DFU_DNLOAD_SYNC) by (rewrite Hs; exact Hds).
    assert (Hms' : dfu_state (exec (dfudf_in_req env ep req stage) w)
                   <> USB_DFU_STATE_DFU_MANIFEST_SYNC) by (rewrite Hs; exact Hms).
    destruct (IH _ Hreq Hstage Hds' Hms') as (H1 & H2 & H3 & H4 & H5).
    rewrite H1, H2, H3, H4, H5. rewrite Hstep. cbn.
    rewrite <- app_assoc. repeat split.
Qed.

Lemma repeated_polls_report_same_state_witness :
  let w := world_in USB_DFU_STATE_DFU_DNBUSY USB_DFU_STATUS_OK false in
  let w' := in_req_repeat env_download 0 (in_request 3 6) USB_SETUP_STAGE 3 w in
  dfu_state w' = USB_DFU_STATE_DFU_DNBUSY /\
  xfers w' = repeat (mk_usb_xfer 0 (BufResponse [0; 10; 0; 0; 4; 0]) 6 false) 3.
Proof.
  assert (Hps : USB_SETUP_STAGE <> USB_DATA_STAGE) by discriminate.
  assert (Hds : USB_DFU_STATE_DFU_DNBUSY <> USB_DFU_STATE_DFU_DNLOAD_SYNC)
    by discriminate.
  assert (Hms : USB_DFU_STATE_DFU_DNBUSY <> USB_DFU_STATE_DFU_MANIFEST_SYNC)
    by discriminate.
  pose proof (repeated_polls_report_same_state env_download 0 (in_request 3 6)
                USB_SETUP_STAGE 3
                (world_in USB_DFU_STATE_DFU_DNBUSY USB_DFU_STATUS_OK false)
                eq_refl Hps Hds Hms) as H.
  cbv zeta in H. destruct H as (H1 & _ & _ & _ & H5).
  split; assumption.
Defined.

(** ** Unsupported requests and unreachable states *)

(** X20. UPLOAD (inbound, outside the data stage) and DETACH (outbound)
    are unsupported in every state: the state becomes Error, the handler
    returns UnsupportedOp, nothing is queued, and status, staged block
    and manifestation flag are left as they were. *)
Theorem upload_and_detach_unsupported :
  forall env ep req stage w,
    (bRequest req = USB_DFU_UPLOAD -> stage <> USB_DATA_STAGE ->
     dfudf_in_req env ep req stage w =
       (ERR_UNSUPPORTED_OP,
        {| dfu_state := USB_DFU_STATE_DFU_ERROR;
           dfu_status := dfu_status w;
           dfu_download_data := dfu_download_data w;
           dfu_download_length := dfu_download_length w;
           dfu_download_offset := dfu_download_offset w;
           dfu_manifestation_complete := dfu_manifestation_complete w;
           func_iface := func_iface w;
           xfers := xfers w |})) /\
    (bRequest req = USB_DFU_DETACH ->
     dfudf_out_req env ep req stage w =
       (ERR_UNSUPPORTED_OP,
        {| dfu_state := USB_DFU_STATE_DFU_ERROR;
           dfu_status := dfu_status w;
           dfu_download_data := dfu_download_data w;
           dfu_download_length := dfu_download_length w;
           dfu_download_offset := dfu_download_offset w;
           dfu_manifestation_complete := dfu_manifestation_complete w;
           func_iface := func_iface w;
           xfers := xfers w |})).
Proof.
  intros env ep req stage w. split.
  - intros Hreq Hstage. unfold dfudf_in_req.
    rewrite (stage_not_data _ Hstage), Hreq. reflexivity.
  - intros Hreq. unfold dfudf_out_req. rewrite Hreq. reflexivity.
Qed.

Lemma upload_and_detach_unsupported_witness :
  fst (dfudf_in_req env_download 0 (in_request 2 64) USB_SETUP_STAGE
         (world_in USB_DFU_STATE_DFU_IDLE USB_DFU_STATUS_OK false))
    = ERR_UNSUPPORTED_OP /\
  fst (dfudf_out_req env_download 0 (out_request 0 1000 0) USB_SETUP_STAGE
         (world_in USB_DFU_STATE_DFU_IDLE USB_DFU_STATUS_OK false))
    = ERR_UNSUPPORTED_OP.
Proof.
  assert (Hps : USB_SETUP_STAGE <> USB_DATA_STAGE) by discriminate.
  split.
  - rewrite (proj1 (upload_and_detach_unsupported env_download 0 (in_request 2 64)
                      USB_SETUP_STAGE
                      (world_in USB_DFU_STATE_DFU_IDLE USB_DFU_STATUS_OK false))
               eq_refl Hps).
    reflexivity.
  - rewrite (proj2 (upload_and_detach_unsupported env_download 0 (out_request 0 1000 0)
                      USB_SETUP_STAGE
                      (world_in USB_DFU_STATE_DFU_IDLE USB_DFU_STATUS_OK false))
               eq_refl).
    reflexivity.
Defined.

(** The states a handler call can write. *)
Lemma handler_next_state :
  forall env ep req stage w,
    let next w' :=
      dfu_state w' = dfu_state w \/
      dfu_state w' = USB_DFU_STATE_DFU_ERROR \/
      dfu_state w' = USB_DFU_STATE_DFU_IDLE \/
      (dfu_state w = USB_DFU_STATE_DFU_DNLOAD_SYNC /\
       dfu_state w' = USB_DFU_STATE_DFU_DNBUSY) \/
      (dfu_state w = USB_DFU_STATE_DFU_MANIFEST_SYNC /\
       (dfu_state w' = USB_DFU_STATE_DFU_MANIFEST \/
        dfu_state w' = USB_DFU_STATE_DFU_MANIFEST_WAIT_RESET)) \/
      (dfu_state w = USB_DFU_STATE_DFU_DNLOAD_IDLE /\
       dfu_state w' = USB_DFU_STATE_DFU_MANIFEST_SYNC) \/
      dfu_state w' = USB_DFU_STATE_DFU_DNLOAD_SYNC in
    next (exec (dfudf_in_req env ep req stage) w) /\
    next (exec (dfudf_out_req env ep req stage) w).
Proof.
  intros env ep req stage w. cbv zeta. split.
  - in_req_cases req stage; unfold_monad; auto;
      destruct (dfu_state w) eqn:Hs; cbn; split_tests; auto 10.
  - out_req_cases req; unfold_monad; auto;
      destruct (dfu_state w) eqn:Hs, (dfu_status w); cbn; split_tests; auto 10.
Qed.

(** The outbound handler only ever clears the manifestation flag. *)
Lemma out_req_never_sets_flag :
  forall env ep req stage w,
    dfu_manifestation_complete (exec (dfudf_out_req env ep req stage) w) = true ->
    dfu_manifestation_complete w = true.
Proof.
  intros env ep req stage w.
  out_req_cases req; unfold_monad; auto;
    destruct (dfu_state w), (dfu_status w); cbn; split_tests; auto; discriminate.
Qed.

(** X21. No request handler call enters DnloadIdle, UploadIdle or an
    application-mode state, and none raises the manifestation-complete
    flag: if the state after a call is one of these, it was the state
    before, and if the flag is set after a call it was set before. Those
    writes are left to the code that applies the staged blocks. *)
Theorem handlers_never_complete_a_step :
  forall env ep req stage w w',
    w' = exec (dfudf_in_req env ep req stage) w \/
    w' = exec (dfudf_out_req env ep req stage) w ->
    (dfu_state w' = USB_DFU_STATE_DFU_DNLOAD_IDLE \/
     dfu_state w' = USB_DFU_STATE_DFU_UPLOAD_IDLE \/
     dfu_state w' = USB_DFU_STATE_APP_IDLE \/
     dfu_state w' = USB_DFU_STATE_APP_DETACH ->
     dfu_state w = dfu_state w') /\
    (dfu_manifestation_complete w' = true -> dfu_manifestation_complete w = true).
Proof.
  intros env ep req stage w w' Hw'.
  destruct (handler_next_state env ep req stage w) as [Hin Hout].
  assert (Hnext :
            dfu_state w' = dfu_state w \/
            dfu_state w' = USB_DFU_STATE_DFU_ERROR \/
            dfu_state w' = USB_DFU_STATE_DFU_IDLE \/
            dfu_state w' = USB_DFU_STATE_DFU_DNBUSY \/
            dfu_state w' = USB_DFU_STATE_DFU_MANIFEST \/
            dfu_state w' = USB_DFU_STATE_DFU_MANIFEST_WAIT_RESET \/
            dfu_state w' = USB_DFU_STATE_DFU_MANIFEST_SYNC \/
            dfu_state w' = USB_DFU_STATE_DFU_DNLOAD_SYNC).
  { destruct Hw' as [-> | ->]; [destruct Hin as [H | [H | [H | [H | [H | [H | H]]]]]]
                               | destruct Hout as [H | [H | [H | [H | [H | [H | H]]]]]]];
      intuition auto. }
  split.
  - intros Hbad.
    destruct Hnext as [H | [H | [H | [H | [H | [H | [H | H]]]]]]];
      [symmetry; exact H | | | | | | |];
      rewrite H in Hbad; intuition discriminate.
  - destruct Hw' as [-> | ->].
    + destruct (in_req_frame env ep req stage w) as (_ & _ & _ & _ & -> & _).
      auto.
    + apply out_req_never_sets_flag.
Qed.

Lemma handlers_never_complete_a_step_witness :
  dfu_state (world_in USB_DFU_STATE_DFU_DNLOAD_IDLE USB_DFU_STATUS_OK false) =
  dfu_state (exec (dfudf_in_req env_download 0 (in_request 3 6) USB_SETUP_STAGE)
               (world_in USB_DFU_STATE_DFU_DNLOAD_IDLE USB_DFU_STATUS_OK false)).
Proof.
  apply (proj1 (handlers_never_complete_a_step env_download 0 (in_request 3 6)
                  USB_SETUP_STAGE
                  (world_in USB_DFU_STATE_DFU_DNLOAD_IDLE USB_DFU_STATUS_OK false)
                  _ (or_introl eq_refl))).
  left. reflexivity.
Defined.

(** X22. From the initial values the request handlers alone reach only
    Idle, DnloadSync, DnBusy and Error, with the manifestation flag
    clear and the interface number zero: DnloadIdle and the manifest
    states need a write to [dfu_state] from outside the handlers. *)
Theorem handlers_alone_never_finish_download :
  forall env w, reachable env w -> handlers_only w.
Proof.
  intros env w Hreach. induction Hreach as
      [data | ep req stage w _ IH | ep req stage w _ IH].
  - unfold handlers_only. cbn. auto.
  - destruct IH as (Hs & Hf & Hi).
    destruct (in_req_frame env ep req stage w) as (_ & _ & _ & _ & Hf' & Hi').
    destruct (handler_next_state env ep req stage w) as [Hin _].
    unfold handlers_only. rewrite Hf', Hi'. split; [| split; assumption].
    destruct Hin as [H | [H | [H | [(_ & H) | [(Hm & _) | [(Hd & _) | H]]]]]];
      rewrite ?H; auto;
      destruct Hs as [Hs | [Hs | [Hs | Hs]]]; congruence.
  - destruct IH as (Hs & Hf & Hi).
    destruct (out_req_frame env ep req stage w) as (_ & Hi').
    destruct (handler_next_state env ep req stage w) as [_ Hout].
    unfold handlers_only. rewrite Hi'. split; [| split; [| assumption]].
    + destruct Hout as [H | [H | [H | [(_ & H) | [(Hm & _) | [(Hd & _) | H]]]]]];
        rewrite ?H; auto;
        destruct Hs as [Hs | [Hs | [Hs | Hs]]]; congruence.
    + destruct (dfu_manifestation_complete
                  (exec (dfudf_out_req env ep req stage) w)) eqn:Hflag;
        [| reflexivity].
      rewrite (out_req_never_sets_flag env ep req stage w Hflag) in Hf.
      discriminate Hf.
Qed.

Lemma handlers_alone_never_finish_download_witness :
  handlers_only
    (exec (dfudf_in_req env_download 0 (in_request 3 6) USB_SETUP_STAGE)
       (exec (dfudf_out_req env_download 0 (out_request 1 0 64) USB_DATA_STAGE)
          (dfu_initial (repeat 0 512)))).
Proof.
  apply (handlers_alone_never_finish_download env_download).
  apply reachable_in. apply reachable_out. apply reachable_initial.
Defined.
